(** * Task management of the CRM: forms, the Task model and its admin

    A shallow embedding of
      - tasks/forms.py            (TaskBaseForm, clean_next_step_date),
      - tasks/models/task.py      (Task),
      - tasks/site/taskadmin.py   (TaskAdmin),
    followed by the properties of the validation rules, of the stage
    cascade between a sub-task and its main task, of the copying of
    attachments and of the ordering of the change list.

    Tables of the database are lists of rows, a queryset is the list of
    rows it yields, and code that writes to the database threads a
    [State] through a small state monad.  An exception raised by a
    validation hook is the [Raise] outcome of a [Result]. *)

From Stdlib Require Import ZArith String Ascii List Bool Lia.
From stdpp Require Import base decidable option list gmap sorting strings.

Local Open Scope string_scope.
Local Open Scope Z_scope.

(** ** Values *)

(** A [datetime.date], as a day number; [<] on dates is [<] on day numbers. *)
Definition date := Z.

(** A [datetime.timedelta], as a number of microseconds.  It is falsy
    exactly when it is the zero duration. *)
Definition timedelta := Z.

Definition timedelta_minutes (minutes : Z) : timedelta := minutes * 60000000.

(** Primary key of a row. *)
Definition pk := Z.

(** ** Validation errors and results *)

(** [ValidationError(message, code=...)] and
    [ValidationError({field: message}, code=...)]. *)
Inductive ValidationError : Type :=
  | ErrorMessage (message : string) (code : option string)
  | ErrorDict (field : string) (message : string) (code : option string).

Inductive Result (A : Type) : Type :=
  | Return (a : A)
  | Raise (e : ValidationError).

Arguments Return {A} a.
Arguments Raise {A} e.

Definition bind_result {A B : Type} (r : Result A) (k : A -> Result B) : Result B :=
  match r with
  | Return a => k a
  | Raise e => Raise e
  end.

Notation "r ;;; k" := (bind_result r (fun _ => k))
  (at level 60, right associativity).

(** [if c: raise e] *)
Definition raise_if (c : bool) (e : ValidationError) : Result unit :=
  if c then Raise e else Return tt.

(** ** Settings *)

Record Settings : Type := { NO_NAME_STR : string }.

(** ** tasks/forms.py *)

Definition ONE_RESPONSIBLE_MSG : string :=
  "This is a sub-task, so specify only one responsible.".

(** The entries of [cleaned_data] that the hooks read.  [d.get(key)]
    is [None] both when the key is absent and when the field was left
    empty; an entry carries the type its form field cleans to. *)
Record CleanedData : Type := {
  cd_name : option string;
  cd_due_date : option date;
  cd_next_step_date : option date;
  cd_remind_me : option bool;
  cd_task : option pk;                (* the main task chosen, if any *)
  cd_responsible : option (list pk);  (* the users selected *)
}.

Record Form : Type := {
  cleaned_data : CleanedData;
  changed_data : list string;
}.

(** Python truthiness of the cleaned values. *)
Definition truthy_str (v : option string) : bool :=
  match v with
  | Some s => negb (String.eqb s "")
  | None => false
  end.

Definition truthy_flag (v : option bool) : bool :=
  match v with
  | Some b => b
  | None => false
  end.

Definition truthy_users (v : option (list pk)) : bool :=
  match v with
  | Some (_ :: _) => true
  | _ => false
  end.

(** [len(cleaned_data.get('responsible'))], read under the truthiness test. *)
Definition len_users (v : option (list pk)) : nat :=
  match v with
  | Some l => length l
  | None => O
  end.

(** [d1 and d1 < d2] for an optional date [d1]. *)
Definition date_before (d1 : option date) (d2 : date) : bool :=
  match d1 with
  | Some d => d <? d2
  | None => false
  end.

(** [key in form.changed_data] *)
Definition changed (key : string) (form : Form) : bool :=
  bool_decide (key ∈ changed_data form).

Definition PAST_DATE_MSG : string := "Date should not be in the past.".
Definition invalid : option string := Some "invalid".

Definition clean_next_step_date (get_today : date) (form : Form) : Result unit :=
  let remind_me := cd_remind_me (cleaned_data form) in
  if changed "next_step_date" form
     || (changed "remind_me" form && truthy_flag remind_me)
  then
    let next_step_date := cd_next_step_date (cleaned_data form) in
    raise_if (date_before next_step_date get_today)
             (ErrorDict "next_step_date" PAST_DATE_MSG invalid)
  else Return tt.

Module TaskBaseForm.

Definition clean_name (settings : Settings) (self : Form) : Result string :=
  let name := cd_name (cleaned_data self) in
  match name with
  | Some s =>
      if negb (truthy_str name) || String.eqb s (NO_NAME_STR settings)
      then Raise (ErrorMessage "Please specify a name" invalid)
      else Return s
  | None => (* not name *)
      Raise (ErrorMessage "Please specify a name" invalid)
  end.

Definition clean_responsible (self : Form) : Result (list pk) :=
  let responsible := cd_responsible (cleaned_data self) in
  match responsible with
  | Some (u :: l) => Return (u :: l)
  | _ => Raise (ErrorMessage "Please specify a responsible" invalid)
  end.

(** [super().clean()] is the framework's [ModelForm.clean], which
    returns [self.cleaned_data]. *)
Definition clean (get_today : date) (self : Form) : Result CleanedData :=
  let cleaned_data := cleaned_data self in
  (* Validate next step date *)
  clean_next_step_date get_today self ;;;
  let due_date := cd_due_date cleaned_data in
  raise_if (changed "due_date" self && date_before due_date get_today)
           (ErrorDict "due_date" PAST_DATE_MSG invalid) ;;;
  (* Sub-task must have only one responsible *)
  raise_if (changed "responsible" self
            && bool_decide (is_Some (cd_task cleaned_data))
            && truthy_users (cd_responsible cleaned_data)
            && (1 <? len_users (cd_responsible cleaned_data))%nat)
           (ErrorDict "responsible" ONE_RESPONSIBLE_MSG invalid) ;;;
  Return cleaned_data.

End TaskBaseForm.

(** ** tasks/models: rows and tables *)

(** A stage of the task life cycle and its flags. *)
Record TaskStage : Type := {
  s_id : pk;
  s_active : bool;
  s_done : bool;
  s_default : bool;
  s_in_progress : bool;
}.

(** A [Task] object.  [t_id] is [None] until the object is saved;
    [t_task_id] is the primary key of the main task of a sub-task;
    [t_stage] is the related stage object (the foreign key is protected
    and nothing here writes to a stage, so an object carries its stage
    row).  [t_next_step_date] is a required date column, [t_lead_time]
    may be [None] on an object built from a form left blank. *)
Record Task : Type := {
  t_id : option pk;
  t_task_id : option pk;
  t_stage : option TaskStage;
  t_active : bool;
  t_lead_time : option timedelta;
  t_name : string;
  t_next_step : string;
  t_next_step_date : date;
  t_closing_date : option date;
  t_workflow : list string;
}.

(** The model a generic relation points to. *)
Inductive ContentType : Type := CT_Task | CT_Project | CT_Memo.

#[global] Instance ContentType_eq_dec : EqDecision ContentType.
Proof. solve_decision. Defined.

(** An attachment ([common.TheFile]): the stored file, by its path, and
    the object it is attached to. *)
Record TheFile : Type := {
  f_id : pk;
  f_file : string;
  f_content_type : ContentType;
  f_object_id : pk;
}.

(** The tables the code reads and writes, and the notices sent.
    [TaskStage_objects] is in the default ordering of the model;
    [Task_responsible] is the table of the many-to-many field
    [responsible], a row being (task id, user id). *)
Record State : Type := {
  Task_objects : list Task;
  TaskStage_objects : list TaskStage;
  Task_responsible : list (pk * pk);
  TheFile_objects : list TheFile;
  closed_notices : list pk;
}.

Definition set_Task_objects (l : list Task) (st : State) : State :=
  {| Task_objects := l;
     TaskStage_objects := TaskStage_objects st;
     Task_responsible := Task_responsible st;
     TheFile_objects := TheFile_objects st;
     closed_notices := closed_notices st |}.

Definition set_TheFile_objects (l : list TheFile) (st : State) : State :=
  {| Task_objects := Task_objects st;
     TaskStage_objects := TaskStage_objects st;
     Task_responsible := Task_responsible st;
     TheFile_objects := l;
     closed_notices := closed_notices st |}.

Definition set_closed_notices (l : list pk) (st : State) : State :=
  {| Task_objects := Task_objects st;
     TaskStage_objects := TaskStage_objects st;
     Task_responsible := Task_responsible st;
     TheFile_objects := TheFile_objects st;
     closed_notices := l |}.

(** Attribute assignments on a task object. *)
Definition set_id (v : option pk) (t : Task) : Task :=
  {| t_id := v; t_task_id := t_task_id t; t_stage := t_stage t;
     t_active := t_active t; t_lead_time := t_lead_time t; t_name := t_name t;
     t_next_step := t_next_step t; t_next_step_date := t_next_step_date t;
     t_closing_date := t_closing_date t; t_workflow := t_workflow t |}.

Definition set_stage (v : option TaskStage) (t : Task) : Task :=
  {| t_id := t_id t; t_task_id := t_task_id t; t_stage := v;
     t_active := t_active t; t_lead_time := t_lead_time t; t_name := t_name t;
     t_next_step := t_next_step t; t_next_step_date := t_next_step_date t;
     t_closing_date := t_closing_date t; t_workflow := t_workflow t |}.

Definition set_active (v : bool) (t : Task) : Task :=
  {| t_id := t_id t; t_task_id := t_task_id t; t_stage := t_stage t;
     t_active := v; t_lead_time := t_lead_time t; t_name := t_name t;
     t_next_step := t_next_step t; t_next_step_date := t_next_step_date t;
     t_closing_date := t_closing_date t; t_workflow := t_workflow t |}.

Definition set_lead_time (v : option timedelta) (t : Task) : Task :=
  {| t_id := t_id t; t_task_id := t_task_id t; t_stage := t_stage t;
     t_active := t_active t; t_lead_time := v; t_name := t_name t;
     t_next_step := t_next_step t; t_next_step_date := t_next_step_date t;
     t_closing_date := t_closing_date t; t_workflow := t_workflow t |}.

Definition set_next_step (v : string) (t : Task) : Task :=
  {| t_id := t_id t; t_task_id := t_task_id t; t_stage := t_stage t;
     t_active := t_active t; t_lead_time := t_lead_time t; t_name := t_name t;
     t_next_step := v; t_next_step_date := t_next_step_date t;
     t_closing_date := t_closing_date t; t_workflow := t_workflow t |}.

Definition set_next_step_date (v : date) (t : Task) : Task :=
  {| t_id := t_id t; t_task_id := t_task_id t; t_stage := t_stage t;
     t_active := t_active t; t_lead_time := t_lead_time t; t_name := t_name t;
     t_next_step := t_next_step t; t_next_step_date := v;
     t_closing_date := t_closing_date t; t_workflow := t_workflow t |}.

Definition set_closing_date (v : option date) (t : Task) : Task :=
  {| t_id := t_id t; t_task_id := t_task_id t; t_stage := t_stage t;
     t_active := t_active t; t_lead_time := t_lead_time t; t_name := t_name t;
     t_next_step := t_next_step t; t_next_step_date := t_next_step_date t;
     t_closing_date := v; t_workflow := t_workflow t |}.

Definition set_workflow (v : list string) (t : Task) : Task :=
  {| t_id := t_id t; t_task_id := t_task_id t; t_stage := t_stage t;
     t_active := t_active t; t_lead_time := t_lead_time t; t_name := t_name t;
     t_next_step := t_next_step t; t_next_step_date := t_next_step_date t;
     t_closing_date := t_closing_date t; t_workflow := v |}.

(** ** Code that writes to the database: a state monad *)

Definition M (A : Type) : Type := State -> A * State.

Definition ret {A : Type} (a : A) : M A := fun st => (a, st).

Definition bind {A B : Type} (c : M A) (k : A -> M B) : M B :=
  fun st => let (a, st') := c st in k a st'.

(** Reading the database, for the queries of a method. *)
Definition get_state : M State := fun st => (st, st).

Notation "'let*' x ':=' c 'in' k" := (bind c (fun x => k))
  (at level 10, x pattern, c at level 100, k at level 200).

Notation "c1 >> c2" := (bind c1 (fun _ => c2))
  (at level 100, c2 at level 200, right associativity).

(** [for x in l: body(x)] *)
Fixpoint for_each {A : Type} (l : list A) (body : A -> M unit) : M unit :=
  match l with
  | nil => ret tt
  | x :: l' => body x >> for_each l' body
  end.

(** The final state of a computation. *)
Definition exec {A : Type} (c : M A) (st : State) : State := snd (c st).

(** ** Queries *)

Definition has_id (i : pk) (t : Task) : bool := bool_decide (t_id t = Some i).

(** [Task.objects.filter(id=i).first()] *)
Definition get_task (st : State) (i : pk) : option Task :=
  List.find (has_id i) (Task_objects st).

(** The related object [obj.task]: [None] without a main task,
    otherwise the row the foreign key points to (the constraint on the
    foreign key keeps that row in the table). *)
Definition task_of (st : State) (obj : Task) : option Task :=
  match t_task_id obj with
  | Some p => get_task st p
  | None => None
  end.

(** [stage__active=True], [stage__done=True] in a filter on tasks. *)
Definition stage__active (t : Task) : bool :=
  match t_stage t with
  | Some s => s_active s
  | None => false
  end.

Definition stage__done (t : Task) : bool :=
  match t_stage t with
  | Some s => s_done s
  | None => false
  end.

(** [Task.objects.filter(task=main_task)], the sub-tasks of a task. *)
Definition is_subtask_of (main_task : Task) (t : Task) : bool :=
  match t_id main_task with
  | Some p => bool_decide (t_task_id t = Some p)
  | None => false
  end.

(** [task.responsible.all()], as user ids. *)
Definition responsible_all (st : State) (t : Task) : list pk :=
  map snd (List.filter (fun r => has_id (fst r) t) (Task_responsible st)).

(** [USER_MODEL.objects.filter(tasks_task_responsible_related__in=tasks)] *)
Definition responsible_in (st : State) (tasks : list Task) : list pk :=
  map snd (List.filter (fun r => existsb (has_id (fst r)) tasks)
                       (Task_responsible st)).

(** [obj.files.all()] of a task: the generic relation to [TheFile]. *)
Definition files_all (st : State) (t : Task) : list TheFile :=
  List.filter (fun f => bool_decide (f_content_type f = CT_Task)
                        && has_id (f_object_id f) t)
              (TheFile_objects st).

(** The key the database gives to the next row of a table. *)
Definition next_pk (ids : list pk) : pk := 1 + fold_right Z.max 0 ids.

(** The ids of the saved rows of a list of tasks. *)
Definition task_ids (l : list Task) : list pk := omap t_id l.

(** ** Methods inherited by [Task] *)

(** Modelled from the spec: [TaskBase.save] and the [Model.save] of the
    ORM behind it are not among the sources.  The record is persisted:
    the row that has the id of the object takes the fields of the
    object, and an object without a row is inserted, under a fresh id
    when it has none.  The many-to-many table is left alone. *)
Definition Model_save (obj : Task) : M Task := fun st =>
  match t_id obj with
  | Some i =>
      if existsb (has_id i) (Task_objects st)
      then (obj, set_Task_objects
                   (map (fun r => if has_id i r then obj else r) (Task_objects st)) st)
      else (obj, set_Task_objects (Task_objects st ++ [obj]) st)
  | None =>
      let obj' := set_id (Some (next_pk (task_ids (Task_objects st)))) obj in
      (obj', set_Task_objects (Task_objects st ++ [obj']) st)
  end.

(** Modelled from the spec: [TaskBase.add_to_workflow] is not among the
    sources.  The message is added to the workflow log of the object. *)
Definition add_to_workflow (msg : string) (t : Task) : Task :=
  set_workflow (t_workflow t ++ [msg]) t.

(** [TheFile.objects.create(file=..., content_object=...)]: a new row
    at the end of the table. *)
Definition TheFile_create (file : string) (ct : ContentType) (object_id : pk) : M unit :=
  fun st =>
    let f := {| f_id := next_pk (map f_id (TheFile_objects st));
                f_file := file;
                f_content_type := ct;
                f_object_id := object_id |} in
    (tt, set_TheFile_objects (TheFile_objects st ++ [f]) st).

(** Modelled from the spec: [notify_task_or_project_closed] is not among
    the sources.  The notice is recorded by the id of the closed task. *)
Definition notify_task_or_project_closed (t : Task) : M unit := fun st =>
  (tt, set_closed_notices (closed_notices st ++ omap t_id [t]) st).

(** Truthiness of a duration that may be missing. *)
Definition truthy_timedelta (v : option timedelta) : bool :=
  match v with
  | Some d => negb (d =? 0)
  | None => false
  end.

(** Truthiness of an id that may be missing. *)
Definition truthy_id (v : option pk) : bool :=
  match v with
  | Some i => negb (i =? 0)
  | None => false
  end.

(** ** tasks/models/task.py *)

Module Task.

Definition ACTIVE_SUBTASK_MSG : string :=
  "The task cannot be closed because there is an active subtask.".

(** Prevent closing a task if it has active subtasks.
    [super_clean] is the [clean] of the base class. *)
Definition clean (super_clean : Task -> Result unit) (st : State) (self : Task)
  : Result unit :=
  let self_id := t_id self in
  (if truthy_id self_id && bool_decide (t_task_id self = None) then
     match t_stage self with
     | Some stage =>
         if negb (s_active stage) then
           let is_active_subtask :=
             existsb (fun t => bool_decide (t_task_id t = self_id) && stage__active t)
                     (Task_objects st) in
           raise_if is_active_subtask (ErrorDict "stage" ACTIVE_SUBTASK_MSG None)
         else Return tt
     | None => Return tt
     end
   else Return tt) ;;;
  super_clean self.

(** Returns the object as it is after the call. *)
Definition save (self : Task) : M Task :=
  let stage := t_stage self in
  let self :=
    match stage with
    | Some s => set_active (s_active s) self
    | None => self
    end in
  let self :=
    if negb (truthy_timedelta (t_lead_time self))
    then set_lead_time (Some (timedelta_minutes 0)) self
    else self in
  Model_save self.

(** Deactivate main task if all subtasks are completed. *)
Definition check_and_deacte_main_task (get_today : date) (self : Task) : M unit :=
  let* st := get_state in
  match task_of st self with
  | None => ret tt
  | Some main_task =>
    match t_stage main_task with
    | None => ret tt
    | Some main_stage =>
      if s_default main_stage || s_in_progress main_stage then
        let subtasks := List.filter (is_subtask_of main_task) (Task_objects st) in
        if negb (existsb t_active subtasks) then
          let done_subtasks :=
            List.filter (fun t => stage__done t && negb (t_active t)) subtasks in
          let done_responsible := responsible_in st done_subtasks in
          let responsible := responsible_all st main_task in
          if bool_decide (list_to_set responsible =@{gset pk}
                          list_to_set done_responsible) then
            let done_stage := List.find s_done (TaskStage_objects st) in
            match done_stage with
            | Some done_stage =>
                let today := get_today in
                let main_task := set_stage (Some done_stage) main_task in
                let main_task :=
                  add_to_workflow "The main task is closed automatically." main_task in
                let main_task := set_next_step "Done" main_task in
                let main_task := set_next_step_date today main_task in
                let main_task := set_closing_date (Some today) main_task in
                let* _ := save main_task in
                ret tt
            | None => ret tt
            end
          else ret tt
        else ret tt
      else ret tt
    end
  end.

(** Copy unique files from a subtask to the main task. *)
Definition copy_files_to_maintask (self : Task) : M unit :=
  let* st := get_state in
  match t_task_id self with
  | None => ret tt
  | Some p =>
    match get_task st p with
    | None => ret tt
    | Some main_task =>
        let maintask_files := map f_file (files_all st main_task) in
        let uniq_files :=
          List.filter (fun f => negb (bool_decide (f_file f ∈ maintask_files)))
                      (files_all st self) in
        match uniq_files with
        | [] => ret tt
        | _ :: _ =>
            for_each uniq_files (fun f => TheFile_create (f_file f) CT_Task p)
        end
    end
  end.

End Task.

(** ** tasks/site/taskadmin.py *)

(** SQL [COALESCE] of two values: the first that is not NULL. *)
Definition Coalesce (a b : option Z) : option Z :=
  match a with
  | Some _ => a
  | None => b
  end.

(** SQL [LEAST] of two values; NULL as soon as one of them is NULL. *)
Definition Least (a b : option Z) : option Z :=
  match a, b with
  | Some x, Some y => Some (Z.min x y)
  | _, _ => None
  end.

(** The order of [ORDER BY ... ASC] on a column: a NULL comes before
    every value.  A row of a table has an id, a step date and hence a
    parent_id, so the place of NULL decides nothing below. *)
Definition sql_lt (a b : option Z) : Prop :=
  match a, b with
  | None, Some _ => True
  | Some x, Some y => x < y
  | _, None => False
  end.

#[global] Instance sql_lt_dec : RelDecision sql_lt.
Proof. intros [x|] [y|]; simpl; apply _. Defined.

(** The order of [ORDER BY c1, c2, c3]: lexicographic on the three keys. *)
Definition sql_order3 (k1 k2 : option Z * option Z * option Z) : Prop :=
  let '(a1, b1, c1) := k1 in
  let '(a2, b2, c2) := k2 in
  sql_lt a1 a2 \/
  (a1 = a2 /\ (sql_lt b1 b2 \/
               (b1 = b2 /\ (sql_lt c1 c2 \/ c1 = c2)))).

#[global] Instance sql_order3_dec : RelDecision sql_order3.
Proof. intros [[a1 b1] c1] [[a2 b2] c2]. simpl. apply _. Defined.

(** The double quote character, for the markup below. *)
Definition dquote : string := String (Ascii.ascii_of_nat 34) EmptyString.

Module TaskAdmin.

(** A task of the queryset with its annotations. *)
Record Row : Type := {
  row : Task;
  step_date : option date;
  parent_id : option pk;
}.

(** The joined column [task__next_step_date]: NULL without a main task. *)
Definition task__next_step_date (st : State) (t : Task) : option date :=
  t_next_step_date <$> task_of st t.

Definition annotate (st : State) (t : Task) : Row :=
  {| row := t;
     step_date :=
       Least (Coalesce (task__next_step_date st t) (Some (t_next_step_date t)))
             (Some (t_next_step_date t));
     parent_id := Coalesce (t_task_id t) (t_id t) |}.

(** The keys of [order_by("parent_id", "step_date", "id")]. *)
Definition order_key (r : Row) : option Z * option Z * option Z :=
  (parent_id r, step_date r, t_id (row r)).

Definition row_le (r1 r2 : Row) : Prop :=
  sql_order3 (order_key r1) (order_key r2).

#[global] Instance row_le_dec : RelDecision row_le.
Proof. intros r1 r2. unfold row_le. apply _. Defined.

(** [qs] is the queryset of the base admin class. *)
Definition get_queryset (st : State) (qs : list Task) : list Row :=
  let qs := map (annotate st) qs in
  merge_sort row_le qs.

(** Lines 193-199 of [save_related]: a sub-task taken in progress
    moves its main task out of the default stage.  Returns the main
    task object as it is afterwards. *)
Definition save_related_cascade (obj main_task : Task) : M Task :=
  let main_stage := t_stage main_task in
  let obj_stage := t_stage obj in
  match main_stage, obj_stage with
  | Some main_stage, Some obj_stage =>
      if s_default main_stage && s_in_progress obj_stage then
        let main_task := set_stage (Some obj_stage) main_task in
        Task.save main_task
      else ret main_task
  | _, _ => ret main_task
  end.

(** Lines 201-205 of [save_related].  The main task object is the
    one [check_and_deacte_main_task] changes and saves, so its
    fields afterwards are those of its row. *)
Definition save_related_closed (get_today : date) (obj : Task) : M unit :=
  if negb (t_active obj) then
    Task.copy_files_to_maintask obj >>
    Task.check_and_deacte_main_task get_today obj >>
    let* st := get_state in
    match task_of st obj with
    | Some main_task =>
        if negb (t_active main_task)
        then notify_task_or_project_closed main_task
        else ret tt
    | None => ret tt
    end
  else ret tt.

(** [obj] is [form.instance]; [super_save_related] is the
    [save_related] of the base admin class. *)
Definition save_related (super_save_related : M unit) (get_today : date)
           (obj : Task) : M unit :=
  super_save_related >>
  let* st := get_state in
  let main_task := task_of st obj in
  match main_task with
  | Some main_task =>
      let* _ := save_related_cascade obj main_task in
      save_related_closed get_today obj
  | None => ret tt
  end.

Definition coloured_name (obj : Task) : string :=
  if bool_decide (t_task_id obj = None) then
    "<span style=" +:+ dquote +:+ "color:var(--green-fg)" +:+ dquote +:+ ">"
      +:+ t_name obj +:+ "</span>"
  else
    "<span style='margin-left:20px'>" +:+ t_name obj +:+ "</span>".

End TaskAdmin.

(** ** Conditions and errors named in the properties *)

(** When the next step date is checked at all. *)
Definition next_step_date_checked (form : Form) : Prop :=
  "next_step_date" ∈ changed_data form
  \/ ("remind_me" ∈ changed_data form /\ cd_remind_me (cleaned_data form) = Some true).

Definition past_next_step_date : ValidationError :=
  ErrorDict "next_step_date" PAST_DATE_MSG invalid.

Definition past_due_date : ValidationError :=
  ErrorDict "due_date" PAST_DATE_MSG invalid.

Definition several_responsible : ValidationError :=
  ErrorDict "responsible" ONE_RESPONSIBLE_MSG invalid.

(** ** Sample submissions *)

Definition sample_settings : Settings := {| NO_NAME_STR := "No name" |}.

(** A submission that edits the name only; both dates are in the past
    when today is day 10. *)
Definition form_stale_dates : Form :=
  {| cleaned_data :=
       {| cd_name := Some "Call the client";
          cd_due_date := Some 5;
          cd_next_step_date := Some 5;
          cd_remind_me := None;
          cd_task := None;
          cd_responsible := Some [7] |};
     changed_data := ["name"] |}.

(** A submission for a sub-task of task 1 that selects two users and
    moves the due date to day 5. *)
Definition form_two_users_past_due : Form :=
  {| cleaned_data :=
       {| cd_name := Some "Call the client";
          cd_due_date := Some 5;
          cd_next_step_date := Some 20;
          cd_remind_me := None;
          cd_task := Some 1;
          cd_responsible := Some [7; 8] |};
     changed_data := ["due_date"; "responsible"] |}.

(** The same with the due date moved to day 15. *)
Definition form_two_users : Form :=
  {| cleaned_data :=
       {| cd_name := Some "Call the client";
          cd_due_date := Some 15;
          cd_next_step_date := Some 20;
          cd_remind_me := None;
          cd_task := Some 1;
          cd_responsible := Some [7; 8] |};
     changed_data := ["due_date"; "responsible"] |}.

(** The error of [Task.clean]. *)
Definition active_subtask_error : ValidationError :=
  ErrorDict "stage" Task.ACTIVE_SUBTASK_MSG None.

(** Task [i] has a sub-task whose stage is active. *)
Definition has_active_subtask (st : State) (i : pk) : Prop :=
  exists sub, sub ∈ Task_objects st /\ t_task_id sub = Some i
              /\ exists s, t_stage sub = Some s /\ s_active s = true.

(** ** Sample stages, tasks and databases *)

Definition stage_pending : TaskStage :=
  {| s_id := 1; s_active := true; s_done := false;
     s_default := true; s_in_progress := false |}.

Definition stage_in_progress : TaskStage :=
  {| s_id := 2; s_active := true; s_done := false;
     s_default := false; s_in_progress := true |}.

Definition stage_done : TaskStage :=
  {| s_id := 3; s_active := false; s_done := true;
     s_default := false; s_in_progress := false |}.

Definition sample_task (i : pk) (main : option pk) (stage : TaskStage) (name : string)
  : Task :=
  {| t_id := Some i; t_task_id := main; t_stage := Some stage;
     t_active := s_active stage; t_lead_time := Some 0; t_name := name;
     t_next_step := "Call"; t_next_step_date := 20; t_closing_date := None;
     t_workflow := [] |}.

(** A task about to be created from a form whose lead time was left blank. *)
Definition unsaved_task : Task :=
  {| t_id := None; t_task_id := None; t_stage := Some stage_in_progress;
     t_active := false; t_lead_time := None; t_name := "Audit";
     t_next_step := "Call"; t_next_step_date := 20; t_closing_date := None;
     t_workflow := [] |}.

(** Main task 1 with the sub-tasks 2 (done, of user 7) and 3 (in
    progress, of user 8). *)
Definition db_open_subtask : State :=
  {| Task_objects :=
       [sample_task 1 None stage_pending "Audit";
        sample_task 2 (Some 1) stage_done "Collect invoices";
        sample_task 3 (Some 1) stage_in_progress "Check invoices"];
     TaskStage_objects := [stage_pending; stage_in_progress; stage_done];
     Task_responsible := [(1, 7); (1, 8); (2, 7); (3, 8)];
     TheFile_objects := [];
     closed_notices := [] |}.

(** The main task of [db_open_subtask], about to be moved to the done stage. *)
Definition main_task_closing : Task :=
  set_stage (Some stage_done) (sample_task 1 None stage_pending "Audit").

(** A base class whose [clean] accepts every object. *)
Definition accept_all (t : Task) : Result unit := Return tt.

(** User [u] is responsible for a sub-task of task [p] that is in a
    done stage and not active. *)
Definition done_responsible (st : State) (p u : pk) : Prop :=
  exists sub i, sub ∈ Task_objects st /\ t_task_id sub = Some p
                /\ stage__done sub = true /\ t_active sub = false
                /\ t_id sub = Some i /\ (i, u) ∈ Task_responsible st.

(** Main task 1 of users 7 and 8; its only sub-task 2, of user 7, is done. *)
Definition db_unshared_responsible : State :=
  {| Task_objects :=
       [sample_task 1 None stage_pending "Audit";
        sample_task 2 (Some 1) stage_done "Collect invoices"];
     TaskStage_objects := [stage_pending; stage_in_progress; stage_done];
     Task_responsible := [(1, 7); (1, 8); (2, 7)];
     TheFile_objects := [];
     closed_notices := [] |}.

(** Main task 1 of users 7 and 8; its sub-tasks 2, of user 7, and 3, of
    user 8, are done. *)
Definition db_all_done : State :=
  {| Task_objects :=
       [sample_task 1 None stage_pending "Audit";
        sample_task 2 (Some 1) stage_done "Collect invoices";
        sample_task 3 (Some 1) stage_done "Check invoices"];
     TaskStage_objects := [stage_pending; stage_in_progress; stage_done];
     Task_responsible := [(1, 7); (1, 8); (2, 7); (3, 8)];
     TheFile_objects := [];
     closed_notices := [] |}.

(** Sub-task 2 of main task 1 carries two files; the main task
    already has one of them. *)
Definition db_with_files : State :=
  {| Task_objects :=
       [sample_task 1 None stage_pending "Audit";
        sample_task 2 (Some 1) stage_in_progress "Collect invoices"];
     TaskStage_objects := [stage_pending; stage_in_progress; stage_done];
     Task_responsible := [(1, 7); (2, 7)];
     TheFile_objects :=
       [{| f_id := 1; f_file := "docs/invoice.pdf";
           f_content_type := CT_Task; f_object_id := 2 |};
        {| f_id := 2; f_file := "docs/contract.pdf";
           f_content_type := CT_Task; f_object_id := 1 |};
        {| f_id := 3; f_file := "docs/contract.pdf";
           f_content_type := CT_Task; f_object_id := 2 |}];
     closed_notices := [] |}.

(** A base admin class whose [save_related] writes nothing that the
    code here reads. *)
Definition save_nothing : M unit := ret tt.

(** Main task 1 (next step on day 10) with the sub-tasks 2 (day 5) and
    3 (day 30), and main task 4 (day 7) with the sub-task 5 (day 7). *)
Definition db_change_list : State :=
  {| Task_objects :=
       [set_next_step_date 7 (sample_task 5 (Some 4) stage_pending "Print");
        set_next_step_date 7 (sample_task 4 None stage_pending "Report");
        set_next_step_date 30 (sample_task 3 (Some 1) stage_pending "Check invoices");
        set_next_step_date 5 (sample_task 2 (Some 1) stage_pending "Collect invoices");
        set_next_step_date 10 (sample_task 1 None stage_pending "Audit")];
     TaskStage_objects := [stage_pending; stage_in_progress; stage_done];
     Task_responsible := [];
     TheFile_objects := [];
     closed_notices := [] |}.


(** ** Further conditions named in the properties *)

(** The fields of an object as [Task.save] hands them to the base
    class: the first two statements of the method. *)
Definition saved_fields (self : Task) : Task :=
  let stage := t_stage self in
  let self :=
    match stage with
    | Some s => set_active (s_active s) self
    | None => self
    end in
  if negb (truthy_timedelta (t_lead_time self))
  then set_lead_time (Some (timedelta_minutes 0)) self
  else self.

(** Every row that has a stage has the active flag of that stage. *)
Definition active_follows_stage (st : State) : Prop :=
  forall t s, t ∈ Task_objects st -> t_stage t = Some s -> t_active t = s_active s.

(** A submission that selects nobody. *)
Definition form_nobody : Form :=
  {| cleaned_data :=
       {| cd_name := Some "Call the client";
          cd_due_date := None;
          cd_next_step_date := Some 20;
          cd_remind_me := None;
          cd_task := None;
          cd_responsible := Some [] |};
     changed_data := ["responsible"] |}.

(** The main task as [check_and_deacte_main_task] hands it to
    [save]: lines 120-126. *)
Definition closed_fields (today : date) (done_stage : TaskStage) (main_task : Task)
  : Task :=
  set_closing_date (Some today)
    (set_next_step_date today
       (set_next_step "Done"
          (add_to_workflow "The main task is closed automatically."
             (set_stage (Some done_stage) main_task)))).

(** The main task of [db_all_done] once it is closed on day 100. *)
Definition closed_audit : Task :=
  fst (Task.save (closed_fields 100 stage_done
                    (sample_task 1 None stage_pending "Audit")) db_all_done).

(** ** tasks/site/taskadmin.py: the other hooks of [TaskAdmin] *)

(** [TaskAdmin.save_model].  [POST] holds the names of [request.POST];
    [super_save_model] is the [save_model] of the base admin class,
    which is handed the object.  Returns what the base class returns. *)
Definition save_model (super_save_model : Task -> M Task) (get_today : date)
           (POST : list string) (obj : Task) : M Task :=
  let* st := get_state in
  let stage := t_stage obj in
  let obj :=
    match stage with
    | Some _ => obj
    | None => set_stage (List.find s_default (TaskStage_objects st)) obj
    end in
  let stage :=
    match stage with
    | Some _ => stage
    | None => t_stage obj
    end in
  let obj :=
    if bool_decide ("_completed" ∈ POST) then
      let obj := set_stage (List.find s_done (TaskStage_objects st)) obj in
      set_closing_date (Some get_today) obj
    else obj in
  let obj :=
    match stage with
    | Some s => if negb (s_active s) then set_closing_date (Some get_today) obj else obj
    | None => obj
    end in
  super_save_model obj.

(** What [TaskAdmin.change_view] does before it hands over to the base
    class: a redirect when the base class gives a URL for a missing
    object, the exception of [Task.objects.get], or the entries
    subtask_num, show_completed and add_subtask_url that it adds to the
    context (the chat, reminder and copy-link entries are left out). *)
Record ChangeContext : Type := {
  subtask_num : nat;
  show_completed : bool;
  add_subtask_url : option string;
}.

Inductive ChangeView : Type :=
  | Redirect (url : string)
  | DoesNotExist
  | Render (extra_context : ChangeContext).

(** [stage and stage.done] under [any]. *)
Definition stage_done_truthy (stage : option TaskStage) : bool :=
  match stage with
  | Some s => s_done s
  | None => false
  end.

(** [url_if_no_object] is the result of [get_url_if_no_object],
    [get_add_subtask_url] the static method of the class, [user] the
    id of [request.user]. *)
Definition change_view (url_if_no_object : option string)
           (get_add_subtask_url : pk -> string)
           (st : State) (user : pk) (object_id : pk) : ChangeView :=
  let url := url_if_no_object in
  if truthy_str url then Redirect (default "" url) else
  let subtask_num :=
    length (List.filter (fun t => bool_decide (t_task_id t = Some object_id))
                        (Task_objects st)) in
  match get_task st object_id with
  | None => DoesNotExist
  | Some task =>
      let stage := t_stage task in
      let show_completed :=
        negb (negb (subtask_num =? 0)%nat
              || (1 <? length (responsible_all st task))%nat
              || stage_done_truthy stage) in
      Render {| subtask_num := subtask_num;
                show_completed := show_completed;
                add_subtask_url :=
                  if negb show_completed
                     && bool_decide (user ∈ responsible_all st task)
                  then Some (get_add_subtask_url object_id)
                  else None |}
  end.

(** A user, with the flags [formfield_for_manytomany] reads. *)
Record User : Type := {
  u_id : pk;
  username : string;
  is_chief : bool;
  is_superuser : bool;
  is_task_operator : bool;
}.

(** The keyword arguments a form field hook passes on: [None] for an
    argument that is not set. *)
Record Kwargs : Type := {
  kw_initial : option (list User);
  kw_queryset : option (list User);
}.

(** The order of [order_by("username")], by character codes. *)
Definition username_le (u v : User) : Prop :=
  String.leb (username u) (username v) = true.

#[global] Instance username_le_dec : RelDecision username_le.
Proof. intros u v. unfold username_le. apply _. Defined.

(** [TaskAdmin.formfield_for_manytomany], up to the call of the base
    class, which is handed the keyword arguments returned here.
    [get_active_users] is the queryset of the helper of that name,
    [db_field_name] is [db_field.name]. *)
Definition formfield_for_manytomany (get_active_users : list User)
           (db_field_name : string) (request_user : User) (kwargs : Kwargs)
  : Kwargs :=
  if String.eqb db_field_name "responsible" then
    let users := get_active_users in
    let restricted :=
      negb (is_chief request_user || is_superuser request_user
            || is_task_operator request_user) in
    let responsible :=
      if restricted
      then List.filter (fun u => u_id u =? u_id request_user) users
      else users in
    {| kw_initial := if restricted then Some responsible else kw_initial kwargs;
       kw_queryset := Some (merge_sort username_le responsible) |}
  else kwargs.

(** ** Sample requests and users *)

Definition sample_add_url (object_id : pk) : string := "/tasks/task/add/".

Definition user_clerk : User :=
  {| u_id := 7; username := "maria"; is_chief := false;
     is_superuser := false; is_task_operator := false |}.

Definition user_chief : User :=
  {| u_id := 8; username := "boris"; is_chief := true;
     is_superuser := false; is_task_operator := false |}.

Definition no_kwargs : Kwargs := {| kw_initial := None; kw_queryset := None |}.

(** The test of [check_and_deacte_main_task] on the stage of the main
    task: a stage that is default or in progress. *)
Definition stage_open (t : Task) : bool :=
  match t_stage t with
  | Some s => s_default s || s_in_progress s
  | None => false
  end.

(** * Properties *)

(** ** Reading the boolean tests *)

Lemma changed_spec (key : string) (form : Form) :
  changed key form = true <-> key ∈ changed_data form.
Proof. unfold changed. apply bool_decide_eq_true. Qed.

Lemma date_before_spec (v : option date) (today : date) :
  date_before v today = true <-> exists d, v = Some d /\ d < today.
Proof.
  destruct v as [d|]; simpl.
  - rewrite Z.ltb_lt. split.
    + intros H. exists d. auto.
    + intros (d' & E & H). congruence.
  - split; [discriminate | intros (d' & E & _); discriminate].
Qed.

Lemma truthy_flag_spec (v : option bool) :
  truthy_flag v = true <-> v = Some true.
Proof. destruct v as [[]|]; simpl; split; congruence. Qed.

Lemma several_users_spec (v : option (list pk)) :
  truthy_users v && (1 <? len_users v)%nat = true
  <-> exists l, v = Some l /\ (1 < length l)%nat.
Proof.
  destruct v as [l|]; simpl.
  - destruct l as [|u l]; simpl.
    + split; [discriminate | intros (l' & E & H)].
      injection E as <-. simpl in H. lia.
    + rewrite Nat.ltb_lt. split.
      * intros H. exists (u :: l). auto.
      * intros (l' & E & H). injection E as <-. exact H.
  - split; [discriminate | intros (l' & E & _); discriminate].
Qed.

Lemma next_step_date_checked_spec (form : Form) :
  changed "next_step_date" form
  || (changed "remind_me" form && truthy_flag (cd_remind_me (cleaned_data form))) = true
  <-> next_step_date_checked form.
Proof.
  unfold next_step_date_checked.
  rewrite orb_true_iff, andb_true_iff, !changed_spec, truthy_flag_spec. tauto.
Qed.

(** [clean_next_step_date] raises one error only, and exactly when a
    checked next step date is in the past. *)
Lemma clean_next_step_date_cases (today : date) (form : Form) :
  (clean_next_step_date today form = Raise past_next_step_date
   /\ next_step_date_checked form
   /\ exists d, cd_next_step_date (cleaned_data form) = Some d /\ d < today)
  \/
  (clean_next_step_date today form = Return tt
   /\ ~ (next_step_date_checked form
         /\ exists d, cd_next_step_date (cleaned_data form) = Some d /\ d < today)).
Proof.
  unfold clean_next_step_date, raise_if.
  destruct (changed "next_step_date" form
            || changed "remind_me" form && truthy_flag (cd_remind_me (cleaned_data form)))
    eqn:Hc.
  - apply next_step_date_checked_spec in Hc.
    destruct (date_before (cd_next_step_date (cleaned_data form)) today) eqn:Hd.
    + apply date_before_spec in Hd. left. auto.
    + right. split; [reflexivity|]. intros [_ Hp].
      apply date_before_spec in Hp. congruence.
  - right. split; [reflexivity|]. intros [Hp _].
    apply next_step_date_checked_spec in Hp. congruence.
Qed.

(** The three checks of [TaskBaseForm.clean], in their order. *)
Lemma TaskBaseForm_clean_cases (today : date) (self : Form) :
  let cd := cleaned_data self in
  let due_past :=
    "due_date" ∈ changed_data self /\ exists d, cd_due_date cd = Some d /\ d < today in
  let several :=
    "responsible" ∈ changed_data self /\ is_Some (cd_task cd)
    /\ exists l, cd_responsible cd = Some l /\ (1 < length l)%nat in
  (TaskBaseForm.clean today self = Raise past_next_step_date
   /\ clean_next_step_date today self = Raise past_next_step_date)
  \/ (TaskBaseForm.clean today self = Raise past_due_date
      /\ clean_next_step_date today self = Return tt /\ due_past)
  \/ (TaskBaseForm.clean today self = Raise several_responsible
      /\ clean_next_step_date today self = Return tt /\ ~ due_past /\ several)
  \/ (TaskBaseForm.clean today self = Return cd
      /\ clean_next_step_date today self = Return tt /\ ~ due_past /\ ~ several).
Proof.
  intros cd due_past several. subst cd due_past several.
  unfold TaskBaseForm.clean.
  destruct (clean_next_step_date_cases today self) as [(E & _) | (E & _)];
    rewrite E; simpl; [left; auto | right].
  destruct (changed "due_date" self && date_before (cd_due_date (cleaned_data self)) today)
    eqn:Hdue; simpl.
  - left. apply andb_true_iff in Hdue as [H1 H2].
    apply changed_spec in H1. apply date_before_spec in H2.
    repeat split; auto.
  - right.
    assert (Hnd : ~ ("due_date" ∈ changed_data self
                     /\ exists d, cd_due_date (cleaned_data self) = Some d /\ d < today)).
    { intros [H1 H2]. apply changed_spec in H1. apply date_before_spec in H2.
      rewrite H1, H2 in Hdue. discriminate. }
    rewrite <- !andb_assoc.
    destruct (changed "responsible" self
              && (bool_decide (is_Some (cd_task (cleaned_data self)))
                  && (truthy_users (cd_responsible (cleaned_data self))
                      && (1 <? len_users (cd_responsible (cleaned_data self)))%nat)))
      eqn:Hr; simpl.
    + left. apply andb_true_iff in Hr as [H1 Hr].
      apply andb_true_iff in Hr as [H2 H3].
      apply changed_spec in H1. apply bool_decide_eq_true in H2.
      apply several_users_spec in H3. repeat split; auto.
    + right. repeat split; auto.
      intros (H1 & H2 & H3).
      apply changed_spec in H1. apply (bool_decide_eq_true_2 _) in H2.
      apply several_users_spec in H3.
      rewrite H1, H2, H3 in Hr. discriminate.
Qed.

(** ** Form validation *)

(** C10 (name validation): [TaskBaseForm.clean_name] raises the
    ValidationError 'Please specify a name' if and only if the submitted
    name is missing, empty or equal to [settings.NO_NAME_STR]; every
    other name is returned unchanged. *)
Theorem clean_name_raises_iff (settings : Settings) (self : Form) :
  let name := cd_name (cleaned_data self) in
  let unnamed :=
    name = None \/ name = Some "" \/ name = Some (NO_NAME_STR settings) in
  (TaskBaseForm.clean_name settings self
     = Raise (ErrorMessage "Please specify a name" invalid) <-> unnamed)
  /\ (forall s, name = Some s -> ~ unnamed ->
        TaskBaseForm.clean_name settings self = Return s).
Proof.
  intros name unnamed. subst name unnamed. unfold TaskBaseForm.clean_name.
  destruct (cd_name (cleaned_data self)) as [s|]; simpl.
  - destruct (String.eqb_spec s "") as [-> | Hne]; simpl.
    + split; [tauto | intros s' _ H; tauto].
    + destruct (String.eqb_spec s (NO_NAME_STR settings)) as [-> | Hne'].
      * split; [tauto | intros s' _ H; tauto].
      * split.
        -- split; [discriminate | intros [H | [H | H]]; congruence].
        -- intros s' E _. congruence.
  - split; [tauto | intros s' E; discriminate].
Qed.

Lemma clean_name_raises_iff_witness :
  TaskBaseForm.clean_name sample_settings form_stale_dates = Return "Call the client".
Proof.
  apply (proj2 (clean_name_raises_iff sample_settings form_stale_dates)).
  - reflexivity.
  - simpl. intros [H | [H | H]]; discriminate.
Defined.

(** C3, as the code has it (past-date validation): whenever the next
    step date is checked (the field was changed, or the reminder was
    changed and is set) and the cleaned next step date is earlier than
    today, [clean_next_step_date] raises 'Date should not be in the
    past.' keyed on next_step_date, and so does [TaskBaseForm.clean];
    whenever that check passes, due_date was changed and the cleaned
    due date is earlier than today, [TaskBaseForm.clean] raises the same
    error keyed on due_date; neither error is raised in any other case,
    so a date equal to or after today passes. *)
Theorem past_date_validation (today : date) (self : Form) :
  let cd := cleaned_data self in
  (clean_next_step_date today self = Raise past_next_step_date
   <-> next_step_date_checked self
       /\ exists d, cd_next_step_date cd = Some d /\ d < today)
  /\ (TaskBaseForm.clean today self = Raise past_next_step_date
      <-> clean_next_step_date today self = Raise past_next_step_date)
  /\ (TaskBaseForm.clean today self = Raise past_due_date
      <-> clean_next_step_date today self = Return tt
          /\ "due_date" ∈ changed_data self
          /\ exists d, cd_due_date cd = Some d /\ d < today)
  /\ (forall d, cd_next_step_date cd = Some d -> today <= d ->
        clean_next_step_date today self = Return tt)
  /\ (forall d, cd_due_date cd = Some d -> today <= d ->
        TaskBaseForm.clean today self <> Raise past_due_date).
Proof.
  intros cd. subst cd.
  assert (H1 : clean_next_step_date today self = Raise past_next_step_date
               <-> next_step_date_checked self
                   /\ exists d, cd_next_step_date (cleaned_data self) = Some d /\ d < today).
  { destruct (clean_next_step_date_cases today self) as [(E & Hc & Hd) | (E & Hn)];
      rewrite E; split; auto; try discriminate. intros H. tauto. }
  assert (H3 : TaskBaseForm.clean today self = Raise past_due_date
               <-> clean_next_step_date today self = Return tt
                   /\ "due_date" ∈ changed_data self
                   /\ exists d, cd_due_date (cleaned_data self) = Some d /\ d < today).
  { destruct (TaskBaseForm_clean_cases today self)
      as [(E & En) | [(E & En & Hd) | [(E & En & Hd & Hs) | (E & En & Hd & Hs)]]];
      rewrite E, En; split; try discriminate; try tauto.
    intros (F & _). discriminate. }
  split; [exact H1|]. split; [|split; [exact H3|split]].
  - destruct (TaskBaseForm_clean_cases today self)
      as [(E & En) | [(E & En & Hd) | [(E & En & Hd & Hs) | (E & En & Hd & Hs)]]];
      rewrite E, En; split; auto; discriminate.
  - intros d E Hle.
    destruct (clean_next_step_date_cases today self) as [(_ & _ & d' & E' & Hlt) | (F & _)];
      [|exact F].
    rewrite E in E'. injection E' as <-. lia.
  - intros d E Hle F. apply H3 in F as (_ & _ & d' & E' & Hlt).
    rewrite E in E'. injection E' as <-. lia.
Qed.

Lemma past_date_validation_witness :
  clean_next_step_date 10 form_two_users = Return tt
  /\ TaskBaseForm.clean 10 form_two_users <> Raise past_due_date.
Proof.
  pose proof (past_date_validation 10 form_two_users) as (_ & _ & _ & H4 & H5).
  split.
  - apply (H4 20); [reflexivity | lia].
  - apply (H5 15); [reflexivity | lia].
Defined.

(** C3 as stated fails: a submission that leaves both date fields
    untouched passes although its due date and its next step date are
    earlier than today. *)
Lemma past_date_unchanged_passes :
  cd_due_date (cleaned_data form_stale_dates) = Some 5
  /\ cd_next_step_date (cleaned_data form_stale_dates) = Some 5
  /\ 5 < 10
  /\ clean_next_step_date 10 form_stale_dates = Return tt
  /\ TaskBaseForm.clean 10 form_stale_dates = Return (cleaned_data form_stale_dates).
Proof. repeat split; vm_compute; reflexivity. Qed.

(** C9, as the code has it (single responsible for sub-tasks):
    [TaskBaseForm.clean] raises 'This is a sub-task, so specify only
    one responsible.' keyed on responsible exactly when the two date
    checks before it pass, the responsible field was changed, a main
    task is set in the cleaned data and more than one user is
    selected; with at most one user or without a main task this error
    is not raised. *)
Theorem one_responsible_for_subtask (today : date) (self : Form) :
  let cd := cleaned_data self in
  (TaskBaseForm.clean today self = Raise several_responsible
   <-> clean_next_step_date today self = Return tt
       /\ ~ ("due_date" ∈ changed_data self
             /\ exists d, cd_due_date cd = Some d /\ d < today)
       /\ "responsible" ∈ changed_data self
       /\ is_Some (cd_task cd)
       /\ exists l, cd_responsible cd = Some l /\ (1 < length l)%nat)
  /\ (cd_task cd = None \/ (len_users (cd_responsible cd) <= 1)%nat ->
      TaskBaseForm.clean today self <> Raise several_responsible).
Proof.
  intros cd. subst cd.
  assert (H : TaskBaseForm.clean today self = Raise several_responsible
   <-> clean_next_step_date today self = Return tt
       /\ ~ ("due_date" ∈ changed_data self
             /\ exists d, cd_due_date (cleaned_data self) = Some d /\ d < today)
       /\ "responsible" ∈ changed_data self
       /\ is_Some (cd_task (cleaned_data self))
       /\ exists l, cd_responsible (cleaned_data self) = Some l /\ (1 < length l)%nat).
  { destruct (TaskBaseForm_clean_cases today self)
      as [(E & En) | [(E & En & Hd) | [(E & En & Hd & Hs) | (E & En & Hd & Hs)]]];
      rewrite E, En; split; try discriminate; try tauto.
    intros (F & _). discriminate. }
  split; [exact H|].
  intros Hor F. apply H in F as (_ & _ & _ & [p Hp] & l & El & Hl).
  destruct Hor as [Hn | Hn].
  - congruence.
  - rewrite El in Hn. simpl in Hn. lia.
Qed.

Lemma one_responsible_for_subtask_witness :
  TaskBaseForm.clean 10 form_stale_dates <> Raise several_responsible.
Proof.
  apply (proj2 (one_responsible_for_subtask 10 form_stale_dates)).
  left. reflexivity.
Defined.

(** C9 as stated fails: the responsible field was changed, a main task
    is set and two users are selected, yet the error raised is the one
    of the due date, which is checked first. *)
Lemma two_users_past_due_raises_due_date :
  "responsible" ∈ changed_data form_two_users_past_due
  /\ is_Some (cd_task (cleaned_data form_two_users_past_due))
  /\ cd_responsible (cleaned_data form_two_users_past_due) = Some [7; 8]
  /\ TaskBaseForm.clean 10 form_two_users_past_due = Raise past_due_date
  /\ TaskBaseForm.clean 10 form_two_users_past_due <> Raise several_responsible.
Proof.
  split; [apply changed_spec; vm_compute; reflexivity|].
  split; [eexists; reflexivity|].
  split; [reflexivity|].
  assert (E : TaskBaseForm.clean 10 form_two_users_past_due = Raise past_due_date)
    by (vm_compute; reflexivity).
  split; [exact E|]. rewrite E. discriminate.
Qed.

(** ** Rows and their ids *)

Lemma has_id_spec (i : pk) (t : Task) : has_id i t = true <-> t_id t = Some i.
Proof. unfold has_id. apply bool_decide_eq_true. Qed.

Lemma get_task_id (st : State) (i : pk) (t : Task) :
  get_task st i = Some t -> t_id t = Some i.
Proof.
  unfold get_task. intros H. apply find_some in H as [_ H].
  apply has_id_spec, H.
Qed.

Lemma find_map_overwrite (i : pk) (obj : Task) (l : list Task) :
  t_id obj = Some i -> existsb (has_id i) l = true ->
  List.find (has_id i) (map (fun r => if has_id i r then obj else r) l) = Some obj.
Proof.
  intros Hobj. induction l as [|r l IH]; simpl; [discriminate|].
  destruct (has_id i r) eqn:Hr; simpl.
  - intros _. apply has_id_spec in Hobj. rewrite Hobj. reflexivity.
  - intros H. rewrite Hr. auto.
Qed.

Lemma find_app_new (i : pk) (obj : Task) (l : list Task) :
  t_id obj = Some i -> existsb (has_id i) l = false ->
  List.find (has_id i) (l ++ [obj]) = Some obj.
Proof.
  intros Hobj. apply has_id_spec in Hobj.
  induction l as [|r l IH]; simpl.
  - intros _. rewrite Hobj. reflexivity.
  - destruct (has_id i r); simpl; [discriminate | auto].
Qed.

Lemma next_pk_above (ids : list pk) (i : pk) : i ∈ ids -> i < next_pk ids.
Proof.
  unfold next_pk. induction ids as [|j ids IH]; simpl.
  - intros H. inversion H.
  - intros H. apply elem_of_cons in H as [-> | H]; [lia|].
    specialize (IH H). lia.
Qed.

Lemma next_pk_fresh (l : list Task) :
  existsb (has_id (next_pk (task_ids l))) l = false.
Proof.
  apply not_true_is_false. intros H.
  apply existsb_exists in H as (t & Hin & Ht).
  apply has_id_spec in Ht.
  assert (Hi : next_pk (task_ids l) ∈ task_ids l).
  { unfold task_ids. apply list_elem_of_omap. exists t.
    split; [apply list_elem_of_In, Hin | exact Ht]. }
  apply next_pk_above in Hi. lia.
Qed.

(** What persisting an object does: the object gets an id (its own if
    it had one), and its row under that id holds its fields. *)
Lemma Model_save_persists (obj : Task) (st : State) :
  exists i,
    Model_save obj st
      = (set_id (Some i) obj, snd (Model_save obj st))
    /\ (t_id obj = Some i \/ t_id obj = None)
    /\ get_task (snd (Model_save obj st)) i = Some (set_id (Some i) obj)
    /\ TaskStage_objects (snd (Model_save obj st)) = TaskStage_objects st
    /\ Task_responsible (snd (Model_save obj st)) = Task_responsible st
    /\ TheFile_objects (snd (Model_save obj st)) = TheFile_objects st
    /\ closed_notices (snd (Model_save obj st)) = closed_notices st.
Proof.
  unfold Model_save, get_task. destruct (t_id obj) as [i|] eqn:Hid.
  - exists i.
    assert (Hobj : set_id (Some i) obj = obj).
    { destruct obj; unfold set_id; simpl in *. congruence. }
    rewrite Hobj.
    destruct (existsb (has_id i) (Task_objects st)) eqn:Hex; simpl.
    + repeat split; auto. apply find_map_overwrite; auto.
    + repeat split; auto. apply find_app_new; auto.
  - exists (next_pk (task_ids (Task_objects st))). simpl.
    repeat split; auto.
    apply find_app_new; [reflexivity | apply next_pk_fresh].
Qed.

(** ** The model *)

(** The fields of an object after [Task.save], and its row. *)
Lemma Task_save_fields (self : Task) (st : State) :
  let saved := fst (Task.save self st) in
  let st' := snd (Task.save self st) in
  (t_task_id saved = t_task_id self /\ t_stage saved = t_stage self
   /\ t_name saved = t_name self /\ t_next_step saved = t_next_step self
   /\ t_next_step_date saved = t_next_step_date self
   /\ t_closing_date saved = t_closing_date self
   /\ t_workflow saved = t_workflow self)
  /\ t_active saved = match t_stage self with
                       | Some s => s_active s
                       | None => t_active self
                       end
  /\ t_lead_time saved = (if truthy_timedelta (t_lead_time self)
                          then t_lead_time self
                          else Some (timedelta_minutes 0))
  /\ (exists i, t_id saved = Some i /\ (t_id self = Some i \/ t_id self = None)
                /\ get_task st' i = Some saved)
  /\ (TaskStage_objects st' = TaskStage_objects st
      /\ Task_responsible st' = Task_responsible st
      /\ TheFile_objects st' = TheFile_objects st
      /\ closed_notices st' = closed_notices st).
Proof.
  unfold Task.save.
  destruct (t_stage self) as [s|] eqn:Hs; simpl;
    destruct (truthy_timedelta (t_lead_time self)) eqn:Hl; simpl;
    match goal with
    | |- context [Model_save ?o st] =>
        destruct (Model_save_persists o st) as (i & E & Hid & Hget & Htables);
        rewrite E; simpl
    end;
    rewrite ?Hs, ?Hl;
    (split; [repeat split; reflexivity|]);
    (split; [reflexivity|]); (split; [reflexivity|]);
    (split; [exists i; auto | exact Htables]).
Qed.

(** C8, as the code has it (save invariant): after [Task.save] the
    active flag of a task that has a stage is the active flag of that
    stage, and the lead time is never null: a missing or zero lead time
    becomes the duration of zero minutes, any other lead time is kept;
    the record is persisted with these fields. *)
Theorem save_sets_active_and_lead_time (self : Task) (st : State) :
  let saved := fst (Task.save self st) in
  let st' := snd (Task.save self st) in
  t_stage saved = t_stage self
  /\ (forall s, t_stage self = Some s -> t_active saved = s_active s)
  /\ (t_stage self = None -> t_active saved = t_active self)
  /\ t_lead_time saved <> None
  /\ (truthy_timedelta (t_lead_time self) = false ->
      t_lead_time saved = Some (timedelta_minutes 0))
  /\ (truthy_timedelta (t_lead_time self) = true ->
      t_lead_time saved = t_lead_time self)
  /\ exists i, t_id saved = Some i /\ get_task st' i = Some saved.
Proof.
  intros saved st'.
  destruct (Task_save_fields self st)
    as ((_ & Hs & _) & Ha & Hl & (i & Hi & _ & Hget) & _).
  fold saved in Hs, Ha, Hl, Hi, Hget. fold st' in Hget.
  split; [exact Hs|].
  split; [intros s E; rewrite Ha, E; reflexivity|].
  split; [intros E; rewrite Ha, E; reflexivity|].
  split.
  { rewrite Hl. destruct (t_lead_time self) as [d|]; simpl; [|discriminate].
    destruct (negb (d =? 0)); discriminate. }
  split; [intros E; rewrite Hl, E; reflexivity|].
  split; [intros E; rewrite Hl, E; reflexivity|].
  exists i. auto.
Qed.

Lemma save_sets_active_and_lead_time_witness :
  t_active (fst (Task.save unsaved_task db_open_subtask)) = true
  /\ t_lead_time (fst (Task.save unsaved_task db_open_subtask)) = Some 0.
Proof.
  pose proof (save_sets_active_and_lead_time unsaved_task db_open_subtask)
    as (_ & Ha & _ & _ & Hl & _).
  split.
  - apply (Ha stage_in_progress). reflexivity.
  - apply Hl. reflexivity.
Defined.

(** C8 as stated fails: a task saved without a lead time has a falsy
    lead time afterwards, the zero duration. *)
Lemma saved_lead_time_is_falsy :
  t_lead_time unsaved_task = None
  /\ t_lead_time (fst (Task.save unsaved_task db_open_subtask))
     = Some (timedelta_minutes 0)
  /\ truthy_timedelta (t_lead_time (fst (Task.save unsaved_task db_open_subtask)))
     = false.
Proof. repeat split; vm_compute; reflexivity. Qed.

Lemma has_active_subtask_spec (st : State) (i : pk) :
  existsb (fun t => bool_decide (t_task_id t = Some i) && stage__active t)
          (Task_objects st) = true
  <-> has_active_subtask st i.
Proof.
  unfold has_active_subtask, stage__active. rewrite existsb_exists. split.
  - intros (sub & Hin & H). apply andb_true_iff in H as [H1 H2].
    apply bool_decide_eq_true in H1.
    exists sub. split; [apply list_elem_of_In, Hin|]. split; [exact H1|].
    destruct (t_stage sub) as [s|]; [|discriminate]. exists s. auto.
  - intros (sub & Hin & H1 & s & Hs & Ha).
    exists sub. split; [apply list_elem_of_In, Hin|].
    rewrite Hs, Ha, andb_true_r. apply bool_decide_eq_true, H1.
Qed.

(** C2 (closing guard): for a saved task (its id is set, and not 0,
    which the code reads as no id) without a main task whose stage is
    not active, [Task.clean] raises the ValidationError on 'stage' when
    one of its sub-tasks has an active stage, and otherwise raises
    nothing of its own and hands over to the base class: the error is
    raised if and only if there is such a sub-task, whenever the base
    class does not raise that very error.  In every other configuration
    (no id, a main task, no stage, an active stage) [Task.clean] only
    hands over to the base class. *)
Theorem clean_closing_guard (super_clean : Task -> Result unit)
        (st : State) (self : Task) :
  (forall i stage,
      t_id self = Some i -> i <> 0 -> t_task_id self = None ->
      t_stage self = Some stage -> s_active stage = false ->
      (has_active_subtask st i ->
       Task.clean super_clean st self = Raise active_subtask_error)
      /\ (~ has_active_subtask st i ->
          Task.clean super_clean st self = super_clean self)
      /\ (super_clean self <> Raise active_subtask_error ->
          (Task.clean super_clean st self = Raise active_subtask_error
           <-> has_active_subtask st i)))
  /\ (truthy_id (t_id self) = false \/ is_Some (t_task_id self)
      \/ t_stage self = None
      \/ (exists stage, t_stage self = Some stage /\ s_active stage = true) ->
      Task.clean super_clean st self = super_clean self).
Proof.
  split.
  - intros i stage Hid Hi Hmain Hstage Hact.
    assert (Hcases :
      (has_active_subtask st i
       /\ Task.clean super_clean st self = Raise active_subtask_error)
      \/ (~ has_active_subtask st i
          /\ Task.clean super_clean st self = super_clean self)).
    { unfold Task.clean. rewrite Hid, Hstage, Hmain, Hact. simpl.
      destruct (Z.eqb_spec i 0) as [|_]; [contradiction|]. simpl.
      destruct (existsb (fun t => bool_decide (t_task_id t = Some i) && stage__active t)
                        (Task_objects st)) eqn:Hex.
      + left. split; [apply has_active_subtask_spec, Hex | reflexivity].
      + right. split; [|reflexivity].
        intros H. apply has_active_subtask_spec in H. congruence. }
    destruct Hcases as [[H E] | [H E]]; rewrite E.
    + repeat split; auto. contradiction.
    + split; [contradiction|]. split; [reflexivity|].
      intros Hsup. split; [contradiction | contradiction].
  - unfold Task.clean. intros H.
    destruct (truthy_id (t_id self) && bool_decide (t_task_id self = None))
      eqn:Hguard; [|reflexivity].
    apply andb_true_iff in Hguard as [Hid Hmain].
    apply bool_decide_eq_true in Hmain.
    destruct H as [H | [H | [H | (stage & Hs & Ha)]]].
    + congruence.
    + destruct H as [p Hp]. congruence.
    + rewrite H. reflexivity.
    + rewrite Hs, Ha. reflexivity.
Qed.

Lemma clean_closing_guard_witness :
  Task.clean accept_all db_open_subtask main_task_closing = Raise active_subtask_error.
Proof.
  assert (Hne : 1 <> 0) by lia.
  pose proof (proj1 (clean_closing_guard accept_all db_open_subtask main_task_closing)
                    1 stage_done eq_refl Hne eq_refl eq_refl eq_refl) as (H & _).
  apply H.
  exists (sample_task 3 (Some 1) stage_in_progress "Check invoices").
  split; [apply list_elem_of_In; simpl; auto|]. split; [reflexivity|].
  exists stage_in_progress. split; reflexivity.
Defined.

(** ** Auto-closing of the main task *)

Lemma responsible_all_spec (st : State) (t : Task) (p u : pk) :
  t_id t = Some p ->
  (u ∈ responsible_all st t <-> (p, u) ∈ Task_responsible st).
Proof.
  intros Hid. unfold responsible_all.
  rewrite !list_elem_of_In, in_map_iff. split.
  - intros ([i u'] & <- & H). apply filter_In in H as [H1 H2]. simpl in *.
    apply has_id_spec in H2. congruence.
  - intros H. exists (p, u). split; [reflexivity|].
    apply filter_In. split; [exact H|]. apply has_id_spec, Hid.
Qed.

Lemma responsible_in_spec (st : State) (l : list Task) (u : pk) :
  u ∈ responsible_in st l
  <-> exists sub i, sub ∈ l /\ t_id sub = Some i /\ (i, u) ∈ Task_responsible st.
Proof.
  unfold responsible_in. rewrite list_elem_of_In, in_map_iff. split.
  - intros ([i u'] & <- & H). apply filter_In in H as [H1 H2]. simpl in *.
    apply existsb_exists in H2 as (sub & Hin & Hsub).
    exists sub, i. rewrite !list_elem_of_In, <- has_id_spec. auto.
  - intros (sub & i & Hin & Hid & H). exists (i, u). split; [reflexivity|].
    apply filter_In. rewrite <- list_elem_of_In. split; [exact H|].
    apply existsb_exists. exists sub.
    rewrite <- list_elem_of_In, has_id_spec. auto.
Qed.

Lemma is_subtask_of_spec (main_task t : Task) (p : pk) :
  t_id main_task = Some p ->
  (is_subtask_of main_task t = true <-> t_task_id t = Some p).
Proof.
  intros Hid. unfold is_subtask_of. rewrite Hid. apply bool_decide_eq_true.
Qed.

Lemma find_first (A : Type) (f : A -> bool) (l : list A) :
  (exists x, x ∈ l /\ f x = true) ->
  exists y, List.find f l = Some y /\ y ∈ l /\ f y = true.
Proof.
  intros (x & Hin & Hx). destruct (List.find f l) as [y|] eqn:E.
  - exists y. apply find_some in E as [E1 E2].
    rewrite list_elem_of_In. auto.
  - apply list_elem_of_In in Hin.
    pose proof (find_none f l E x Hin). congruence.
Qed.

(** C1, as the code has it (auto-closing): for a main task whose stage
    has the default or the in_progress flag, when no sub-task of it is
    active, the users responsible for it are exactly the users
    responsible for its done, inactive sub-tasks, and a stage with
    done=True exists, calling [check_and_deacte_main_task] on a sub-task
    closes the main task: its row then has a stage with done=True,
    the next step 'Done', and today as next step date and as closing
    date. *)
Theorem auto_close_main_task (today : date) (st : State) (self : Task)
        (p : pk) (main_task : Task) (main_stage : TaskStage) :
  t_task_id self = Some p ->
  get_task st p = Some main_task ->
  t_stage main_task = Some main_stage ->
  s_default main_stage = true \/ s_in_progress main_stage = true ->
  (forall sub, sub ∈ Task_objects st -> t_task_id sub = Some p ->
               t_active sub = false) ->
  (forall u, (p, u) ∈ Task_responsible st <-> done_responsible st p u) ->
  (exists s, s ∈ TaskStage_objects st /\ s_done s = true) ->
  let st' := exec (Task.check_and_deacte_main_task today self) st in
  exists closed done_stage,
    get_task st' p = Some closed
    /\ t_stage closed = Some done_stage
    /\ done_stage ∈ TaskStage_objects st /\ s_done done_stage = true
    /\ t_next_step closed = "Done"
    /\ t_next_step_date closed = today
    /\ t_closing_date closed = Some today
    /\ t_active closed = s_active done_stage.
Proof.
  intros Hself Hmain Hstage Hflag Hinactive Hresp Hdone st'. subst st'.
  pose proof (get_task_id _ _ _ Hmain) as Hid.
  unfold Task.check_and_deacte_main_task, exec, bind, get_state, task_of.
  rewrite Hself, Hmain, Hstage.
  assert (Hf : s_default main_stage || s_in_progress main_stage = true).
  { apply orb_true_iff. exact Hflag. }
  rewrite Hf.
  assert (Hno : existsb t_active
                  (List.filter (is_subtask_of main_task) (Task_objects st)) = false).
  { apply not_true_is_false. intros H.
    apply existsb_exists in H as (sub & Hin & Hact).
    apply filter_In in Hin as [Hin Hsub].
    apply (is_subtask_of_spec _ _ _ Hid) in Hsub.
    apply list_elem_of_In in Hin.
    rewrite (Hinactive sub Hin Hsub) in Hact. discriminate. }
  rewrite Hno. simpl.
  rewrite bool_decide_eq_true_2.
  2:{ apply set_eq. intros u.
      rewrite !elem_of_list_to_set, (responsible_all_spec st main_task p u Hid).
      rewrite responsible_in_spec, Hresp. unfold done_responsible.
      split.
      - intros (sub & i & Hin & Hp & Hd & Ha & Hi & Hr). exists sub, i.
        split; [|auto]. apply list_elem_of_In, filter_In. split.
        + apply filter_In. rewrite <- list_elem_of_In.
          split; [exact Hin|]. apply (is_subtask_of_spec _ _ _ Hid), Hp.
        + rewrite Hd, Ha. reflexivity.
      - intros (sub & i & Hin & Hi & Hr).
        apply list_elem_of_In, filter_In in Hin as [Hin Hda].
        apply filter_In in Hin as [Hin Hsub].
        apply andb_true_iff in Hda as [Hd Ha]. apply negb_true_iff in Ha.
        apply (is_subtask_of_spec _ _ _ Hid) in Hsub.
        exists sub, i. rewrite list_elem_of_In. auto 10. }
  destruct (find_first _ s_done (TaskStage_objects st) Hdone)
    as (done_stage & Hfind & Hin & Hd).
  rewrite Hfind.
  match goal with
  | |- context [Task.save ?o st] =>
      destruct (Task_save_fields o st)
        as ((_ & Hs & _ & Hn & Hnd & Hc & _) & Ha & _ & (i & Hi & Hor & Hget) & _);
      destruct (Task.save o st) as [closed st1] eqn:Esave
  end.
  simpl in *.
  assert (i = p) as -> by (destruct Hor; congruence).
  exists closed, done_stage. auto 10.
Qed.

Lemma auto_close_main_task_witness :
  exists closed done_stage,
    get_task (exec (Task.check_and_deacte_main_task 100
                      (sample_task 2 (Some 1) stage_done "Collect invoices"))
                   db_all_done) 1 = Some closed
    /\ t_stage closed = Some done_stage
    /\ done_stage ∈ TaskStage_objects db_all_done /\ s_done done_stage = true
    /\ t_next_step closed = "Done"
    /\ t_next_step_date closed = 100
    /\ t_closing_date closed = Some 100
    /\ t_active closed = s_active done_stage.
Proof.
  apply (auto_close_main_task 100 db_all_done
           (sample_task 2 (Some 1) stage_done "Collect invoices") 1
           (sample_task 1 None stage_pending "Audit") stage_pending).
  - reflexivity.
  - reflexivity.
  - reflexivity.
  - left. reflexivity.
  - intros sub Hin Hp. apply list_elem_of_In in Hin. simpl in Hin.
    destruct Hin as [<- | [<- | [<- | []]]]; try reflexivity; discriminate.
  - intros u. unfold done_responsible. rewrite list_elem_of_In. simpl. split.
    + intros [E | [E | [E | [E | []]]]]; inversion E; subst.
      * exists (sample_task 2 (Some 1) stage_done "Collect invoices"), 2.
        rewrite !list_elem_of_In. simpl. auto 10.
      * exists (sample_task 3 (Some 1) stage_done "Check invoices"), 3.
        rewrite !list_elem_of_In. simpl. auto 10.
    + intros (sub & i & Hin & Hp & _ & _ & Hi & Hr).
      apply list_elem_of_In in Hin. apply list_elem_of_In in Hr.
      simpl in Hin, Hr.
      destruct Hin as [<- | [<- | [<- | []]]]; simpl in Hp, Hi;
        try discriminate; injection Hi as <-;
        destruct Hr as [E | [E | [E | [E | []]]]]; inversion E; auto.
  - exists stage_done. split; [|reflexivity].
    apply list_elem_of_In. simpl. auto.
Defined.

(** C1 as stated fails: the main task 1 is in the default stage and
    its only sub-task is done and inactive, but user 8, responsible
    for the main task, is responsible for no done sub-task; the call
    changes nothing and the main task keeps its stage. *)
Lemma main_task_not_closed :
  let main_task := sample_task 1 None stage_pending "Audit" in
  let subtask := sample_task 2 (Some 1) stage_done "Collect invoices" in
  let st' := exec (Task.check_and_deacte_main_task 100 subtask)
                  db_unshared_responsible in
  get_task db_unshared_responsible 1 = Some main_task
  /\ t_stage main_task = Some stage_pending
  /\ s_default stage_pending = true
  /\ (forall sub, sub ∈ Task_objects db_unshared_responsible ->
                  t_task_id sub = Some 1 ->
                  t_active sub = false /\ stage__done sub = true)
  /\ s_done stage_done = true /\ stage_done ∈ TaskStage_objects db_unshared_responsible
  /\ st' = db_unshared_responsible
  /\ get_task st' 1 = Some main_task
  /\ s_done stage_pending = false
  /\ t_next_step main_task <> "Done".
Proof.
  intros main_task subtask st'.
  assert (E : st' = db_unshared_responsible) by (vm_compute; reflexivity).
  rewrite E.
  split; [reflexivity|]. split; [reflexivity|]. split; [reflexivity|].
  split.
  { intros sub Hin Hp. apply list_elem_of_In in Hin. simpl in Hin.
    destruct Hin as [<- | [<- | []]]; [discriminate | split; reflexivity]. }
  split; [reflexivity|].
  split; [apply list_elem_of_In; simpl; auto|].
  split; [reflexivity|]. split; [reflexivity|]. split; [reflexivity|].
  discriminate.
Qed.

(** ** Attachments *)

Lemma set_TheFile_objects_same (st : State) :
  set_TheFile_objects (TheFile_objects st) st = st.
Proof. destruct st. reflexivity. Qed.

(** The loop of [copy_files_to_maintask]: one new row per file, in
    order, each under a key that no row has yet. *)
Lemma for_each_create (p : pk) (l : list TheFile) (st : State) :
  exists created,
    for_each l (fun f => TheFile_create (f_file f) CT_Task p) st
      = (tt, set_TheFile_objects (TheFile_objects st ++ created) st)
    /\ map f_file created = map f_file l
    /\ Forall (fun f => f_content_type f = CT_Task /\ f_object_id f = p) created
    /\ Forall (fun f => f_id f ∉ map f_id (TheFile_objects st)) created
    /\ NoDup (map f_id created).
Proof.
  revert st. induction l as [|x l IH]; intros st.
  - exists []. simpl. unfold ret. rewrite app_nil_r, set_TheFile_objects_same.
    repeat split; constructor.
  - simpl. unfold bind at 1. unfold TheFile_create at 1.
    set (f0 := {| f_id := next_pk (map f_id (TheFile_objects st));
                  f_file := f_file x;
                  f_content_type := CT_Task;
                  f_object_id := p |}).
    set (st1 := set_TheFile_objects (TheFile_objects st ++ [f0]) st).
    destruct (IH st1) as (created & E & Hfiles & Hattached & Hfresh & Hnodup).
    exists (f0 :: created). rewrite E. subst st1. simpl.
    rewrite <- app_assoc. simpl.
    split; [reflexivity|]. split; [rewrite Hfiles; reflexivity|].
    split; [constructor; auto|].
    assert (Hf0 : f_id f0 ∉ map f_id (TheFile_objects st)).
    { intros H. apply next_pk_above in H. simpl in H. lia. }
    simpl in Hfresh. rewrite map_app in Hfresh. simpl in Hfresh.
    split.
    + constructor; [exact Hf0|].
      eapply Forall_impl; [exact Hfresh|]. simpl.
      intros f H Hin. apply H. apply elem_of_app. left. exact Hin.
    + constructor; [|exact Hnodup].
      intros Hin. apply list_elem_of_In, in_map_iff in Hin as (g & Eg & Hg).
      rewrite Forall_forall in Hfresh. apply list_elem_of_In in Hg.
      apply (Hfresh g Hg). rewrite Eg. apply elem_of_app. right.
      apply list_elem_of_here.
Qed.

Lemma map_filter_file (P : string -> bool) (l : list TheFile) :
  map f_file (List.filter (fun f => P (f_file f)) l) = List.filter P (map f_file l).
Proof.
  induction l as [|f l IH]; simpl; [reflexivity|].
  destruct (P (f_file f)); simpl; rewrite IH; reflexivity.
Qed.

(** C5 (file-attachment handling): for a sub-task,
    [copy_files_to_maintask] creates on the main task a new file object
    for exactly those files of the sub-task whose underlying file is
    not among the files of the main task, and changes nothing else; for
    a task without a main task it creates nothing and changes no
    state. *)
Theorem copy_files_to_maintask_unique (st : State) (self : Task) :
  (t_task_id self = None -> Task.copy_files_to_maintask self st = (tt, st))
  /\ (forall p main_task,
        t_task_id self = Some p -> get_task st p = Some main_task ->
        let maintask_files := map f_file (files_all st main_task) in
        exists created,
          Task.copy_files_to_maintask self st
            = (tt, set_TheFile_objects (TheFile_objects st ++ created) st)
          /\ map f_file created
             = List.filter (fun file => negb (bool_decide (file ∈ maintask_files)))
                           (map f_file (files_all st self))
          /\ (forall file, file ∈ map f_file created
                <-> file ∈ map f_file (files_all st self)
                    /\ file ∉ maintask_files)
          /\ Forall (fun f => f_content_type f = CT_Task /\ f_object_id f = p) created
          /\ Forall (fun f => f_id f ∉ map f_id (TheFile_objects st)) created
          /\ NoDup (map f_id created)
          /\ files_all (set_TheFile_objects (TheFile_objects st ++ created) st) main_task
             = (files_all st main_task ++ created)%list).
Proof.
  split.
  - unfold Task.copy_files_to_maintask, bind, get_state. intros ->. reflexivity.
  - intros p main_task Hp Hmain maintask_files.
    unfold Task.copy_files_to_maintask, bind, get_state. rewrite Hp, Hmain.
    fold maintask_files.
    match goal with
    | |- context [for_each ?l ?body] =>
        destruct (for_each_create p l st)
          as (created & E & Hfiles & Hattached & Hfresh & Hnodup);
        assert (Hloop : match l with
                        | [] => ret tt
                        | _ :: _ => for_each l body
                        end = for_each l body) by (destruct l; reflexivity);
        rewrite Hloop; clear Hloop
    end.
    exists created. rewrite E.
    pose proof (map_filter_file
                  (fun file => negb (bool_decide (file ∈ maintask_files)))
                  (files_all st self)) as Hmap.
    simpl in Hmap. subst maintask_files. rewrite Hmap in Hfiles. clear Hmap.
    split; [reflexivity|]. split; [exact Hfiles|].
    split.
    { intros file. rewrite Hfiles, !list_elem_of_In, filter_In.
      rewrite negb_true_iff, bool_decide_eq_false, <- !list_elem_of_In.
      reflexivity. }
    split; [exact Hattached|]. split; [exact Hfresh|]. split; [exact Hnodup|].
    unfold files_all. simpl. rewrite List.filter_app. f_equal.
    apply get_task_id in Hmain.
    clear -Hattached Hmain. induction Hattached as [|f l [H1 H2] _ IH]; simpl.
    + reflexivity.
    + rewrite H1, H2. rewrite bool_decide_eq_true_2 by reflexivity.
      apply has_id_spec in Hmain. rewrite Hmain. simpl. rewrite IH. reflexivity.
Qed.

Lemma copy_files_to_maintask_unique_witness :
  exists created,
    Task.copy_files_to_maintask
      (sample_task 2 (Some 1) stage_in_progress "Collect invoices") db_with_files
      = (tt, set_TheFile_objects (TheFile_objects db_with_files ++ created)
                                 db_with_files)
    /\ map f_file created = ["docs/invoice.pdf"].
Proof.
  destruct (proj2 (copy_files_to_maintask_unique db_with_files
                     (sample_task 2 (Some 1) stage_in_progress "Collect invoices"))
                  1 (sample_task 1 None stage_pending "Audit") eq_refl eq_refl)
    as (created & E & Hfiles & _).
  exists created. split; [exact E | exact Hfiles].
Defined.

(** ** The admin: rendering of the name *)

(** C7 (coloured list cells): for a task without a main task
    [coloured_name] is the name in a span styled with the green
    foreground colour variable, for a sub-task it is the name in a span
    with a left margin of 20px; the two renderings are never equal, so
    exactly one of them is produced. *)
Theorem coloured_name_rendering (obj : Task) :
  let green :=
    "<span style=" +:+ dquote +:+ "color:var(--green-fg)" +:+ dquote +:+ ">"
      +:+ t_name obj +:+ "</span>" in
  let indented := "<span style='margin-left:20px'>" +:+ t_name obj +:+ "</span>" in
  green <> indented
  /\ ((t_task_id obj = None /\ TaskAdmin.coloured_name obj = green)
      \/ (is_Some (t_task_id obj) /\ TaskAdmin.coloured_name obj = indented)).
Proof.
  intros green indented. split.
  - subst green indented. simpl. discriminate.
  - unfold TaskAdmin.coloured_name. destruct (t_task_id obj) as [p|].
    + right. split; [eexists; reflexivity|].
      rewrite bool_decide_eq_false_2 by discriminate. reflexivity.
    + left. split; [reflexivity|].
      rewrite bool_decide_eq_true_2 by reflexivity. reflexivity.
Qed.

(** ** The admin: saving a sub-task *)

(** C4 (upward cascade): when a sub-task is saved through the admin,
    its stage has in_progress=True and the stage of its main task has
    default=True, [save_related] sets the stage of the main task to the
    stage of the sub-task and saves the main task; if one of the two
    flags is not set (or a stage is missing) this step leaves the main
    task and the database as they are.  The step is followed by the
    closing step, which does nothing for an active sub-task. *)
Theorem save_related_cascades_stage (super_save_related : M unit) (today : date)
        (obj : Task) (st : State) (p : pk) (main_task : Task) :
  let st1 := exec super_save_related st in
  t_task_id obj = Some p ->
  get_task st1 p = Some main_task ->
  let cascade := TaskAdmin.save_related_cascade obj main_task st1 in
  exec (TaskAdmin.save_related super_save_related today obj) st
    = exec (TaskAdmin.save_related_closed today obj) (snd cascade)
  /\ (t_active obj = true ->
      exec (TaskAdmin.save_related super_save_related today obj) st = snd cascade)
  /\ (forall main_stage obj_stage,
        t_stage main_task = Some main_stage -> t_stage obj = Some obj_stage ->
        s_default main_stage = true -> s_in_progress obj_stage = true ->
        cascade = Task.save (set_stage (Some obj_stage) main_task) st1
        /\ t_stage (fst cascade) = Some obj_stage
        /\ get_task (snd cascade) p = Some (fst cascade))
  /\ (~ (exists main_stage obj_stage,
           t_stage main_task = Some main_stage /\ t_stage obj = Some obj_stage
           /\ s_default main_stage = true /\ s_in_progress obj_stage = true) ->
      cascade = (main_task, st1)).
Proof.
  intros st1 Hp Hmain cascade.
  assert (Hall : exec (TaskAdmin.save_related super_save_related today obj) st
                 = exec (TaskAdmin.save_related_closed today obj) (snd cascade)).
  { subst cascade st1.
    unfold TaskAdmin.save_related, exec, bind, get_state, task_of in *.
    destruct (super_save_related st) as [[] st1]. simpl in *.
    rewrite Hp, Hmain.
    destruct (TaskAdmin.save_related_cascade obj main_task st1) as [m st2].
    reflexivity. }
  split; [exact Hall|]. split; [|split].
  - intros Hact. rewrite Hall. unfold TaskAdmin.save_related_closed.
    rewrite Hact. reflexivity.
  - intros main_stage obj_stage Hms Hos Hd Hi.
    assert (E : cascade = Task.save (set_stage (Some obj_stage) main_task) st1).
    { subst cascade. unfold TaskAdmin.save_related_cascade.
      rewrite Hms, Hos, Hd, Hi. reflexivity. }
    split; [exact E|]. rewrite E.
    destruct (Task_save_fields (set_stage (Some obj_stage) main_task) st1)
      as ((_ & Hs & _) & _ & _ & (i & Hid & Hor & Hget) & _).
    split; [exact Hs|].
    apply get_task_id in Hmain.
    assert (i = p) as -> by (destruct Hor as [H | H]; simpl in H; congruence).
    exact Hget.
  - intros Hnot. subst cascade. unfold TaskAdmin.save_related_cascade.
    destruct (t_stage main_task) as [main_stage|]; [|reflexivity].
    destruct (t_stage obj) as [obj_stage|]; [|reflexivity].
    destruct (s_default main_stage && s_in_progress obj_stage) eqn:Hflags;
      [|reflexivity].
    apply andb_true_iff in Hflags as [Hd Hi].
    exfalso. apply Hnot. exists main_stage, obj_stage. auto.
Qed.

(** Saving the last open sub-task as done: the main task is closed by
    [check_and_deacte_main_task] and the notice is sent for it. *)
Example save_related_closes_main_task :
  let obj := sample_task 3 (Some 1) stage_done "Check invoices" in
  let st' := exec (TaskAdmin.save_related save_nothing 100 obj) db_all_done in
  (t_stage <$> get_task st' 1) = Some (Some stage_done)
  /\ (t_closing_date <$> get_task st' 1) = Some (Some 100)
  /\ closed_notices st' = [1].
Proof. vm_compute. auto. Qed.

Lemma save_related_cascades_stage_witness :
  let obj := sample_task 3 (Some 1) stage_in_progress "Check invoices" in
  let main_task := sample_task 1 None stage_pending "Audit" in
  let cascade := TaskAdmin.save_related_cascade obj main_task db_open_subtask in
  exec (TaskAdmin.save_related save_nothing 100 obj) db_open_subtask = snd cascade
  /\ t_stage (fst cascade) = Some stage_in_progress
  /\ get_task (snd cascade) 1 = Some (fst cascade).
Proof.
  intros obj main_task cascade.
  pose proof (save_related_cascades_stage save_nothing 100 obj db_open_subtask 1
                main_task eq_refl eq_refl) as (_ & Hact & Hyes & _).
  split; [apply Hact; reflexivity|].
  apply (Hyes stage_pending stage_in_progress); reflexivity.
Defined.

(** ** The admin: ordering of the change list *)

Lemma sql_lt_trans (a b c : option Z) : sql_lt a b -> sql_lt b c -> sql_lt a c.
Proof. destruct a, b, c; simpl; try tauto. lia. Qed.

Lemma sql_lt_irrefl (a : option Z) : ~ sql_lt a a.
Proof. destruct a; simpl; [lia | tauto]. Qed.

Lemma sql_lt_trichotomy (a b : option Z) : sql_lt a b \/ a = b \/ sql_lt b a.
Proof.
  destruct a as [x|], b as [y|]; simpl; auto.
  destruct (Z.lt_trichotomy x y) as [H | [-> | H]]; auto.
Qed.

#[global] Instance sql_order3_trans : Transitive sql_order3.
Proof.
  intros [[a1 b1] c1] [[a2 b2] c2] [[a3 b3] c3]. simpl.
  intros [Ha | [-> [Hb | [-> [Hc | ->]]]]] [Ha' | [<- [Hb' | [<- [Hc' | <-]]]]];
    eauto 10 using sql_lt_trans.
Qed.

#[global] Instance sql_order3_total : Total sql_order3.
Proof.
  intros [[a1 b1] c1] [[a2 b2] c2]. simpl.
  destruct (sql_lt_trichotomy a1 a2) as [H | [-> | H]]; auto.
  destruct (sql_lt_trichotomy b1 b2) as [H | [-> | H]]; auto 10.
  destruct (sql_lt_trichotomy c1 c2) as [H | [-> | H]]; auto 10.
Qed.

#[global] Instance row_le_trans : Transitive TaskAdmin.row_le.
Proof.
  intros r1 r2 r3. unfold TaskAdmin.row_le. apply sql_order3_trans.
Qed.

#[global] Instance row_le_total : Total TaskAdmin.row_le.
Proof.
  intros r1 r2. unfold TaskAdmin.row_le. apply sql_order3_total.
Qed.

(** Rows in order have their first keys in order. *)
Lemma row_le_parent_id (r1 r2 : TaskAdmin.Row) :
  TaskAdmin.row_le r1 r2 ->
  sql_lt (TaskAdmin.parent_id r1) (TaskAdmin.parent_id r2)
  \/ TaskAdmin.parent_id r1 = TaskAdmin.parent_id r2.
Proof.
  unfold TaskAdmin.row_le, TaskAdmin.order_key. simpl. tauto.
Qed.

Lemma StronglySorted_lookup {A : Type} (R : relation A) (l : list A) :
  StronglySorted R l ->
  forall (i j : nat) (x y : A),
    (i < j)%nat -> l !! i = Some x -> l !! j = Some y -> R x y.
Proof.
  induction 1 as [|a l Hl IH Hall]; intros i j x y Hij Hi Hj.
  - rewrite lookup_nil in Hi. discriminate.
  - destruct j as [|j]; [lia|]. simpl in Hj.
    destruct i as [|i]; simpl in Hi.
    + injection Hi as <-. rewrite Forall_forall in Hall.
      apply Hall. eapply list_elem_of_lookup_2, Hj.
    + apply (IH i j); auto. lia.
Qed.

Lemma annotate_row (st : State) (t : Task) :
  TaskAdmin.row (TaskAdmin.annotate st t) = t.
Proof. reflexivity. Qed.

(** C6 (list ordering): [get_queryset] returns every task of the
    queryset, annotated with parent_id, the id of its main task when it
    is a sub-task and its own id otherwise, and with step_date, the
    least of the next step date of its main task (its own when there is
    no main task) and its own next step date; the result is ordered by
    (parent_id, step_date, id): of two rows, the earlier one has the
    smaller parent_id, or the same parent_id and the smaller step_date,
    or the same parent_id and step_date and the smaller id; so the
    rows that share a parent_id, a main task and its sub-tasks, are
    next to each other. *)
Theorem get_queryset_ordering (st : State) (qs : list Task) :
  let result := TaskAdmin.get_queryset st qs in
  let parent_of := fun (t : Task) (own_id : pk) =>
    match t_task_id t with
    | Some p => p
    | None => own_id
    end in
  let step_of := fun (t : Task) =>
    Z.min match task_of st t with
          | Some main_task => t_next_step_date main_task
          | None => t_next_step_date t
          end
          (t_next_step_date t) in
  map TaskAdmin.row result ≡ₚ qs
  /\ (forall r, r ∈ result ->
        TaskAdmin.parent_id r
          = match t_task_id (TaskAdmin.row r) with
            | Some p => Some p
            | None => t_id (TaskAdmin.row r)
            end
        /\ TaskAdmin.step_date r
           = Some (Z.min
                     match task_of st (TaskAdmin.row r) with
                     | Some main_task => t_next_step_date main_task
                     | None => t_next_step_date (TaskAdmin.row r)
                     end
                     (t_next_step_date (TaskAdmin.row r))))
  /\ (forall (i j : nat) (a b : TaskAdmin.Row) (id_a id_b : pk),
        (i < j)%nat ->
        result !! i = Some a -> result !! j = Some b ->
        t_id (TaskAdmin.row a) = Some id_a ->
        t_id (TaskAdmin.row b) = Some id_b ->
        parent_of (TaskAdmin.row a) id_a < parent_of (TaskAdmin.row b) id_b
        \/ (parent_of (TaskAdmin.row a) id_a = parent_of (TaskAdmin.row b) id_b
            /\ (step_of (TaskAdmin.row a) < step_of (TaskAdmin.row b)
                \/ (step_of (TaskAdmin.row a) = step_of (TaskAdmin.row b)
                    /\ id_a <= id_b))))
  /\ StronglySorted TaskAdmin.row_le result
  /\ (forall (i j k : nat) (a b c : TaskAdmin.Row),
        (i < j < k)%nat ->
        result !! i = Some a -> result !! j = Some b -> result !! k = Some c ->
        TaskAdmin.parent_id a = TaskAdmin.parent_id c ->
        TaskAdmin.parent_id b = TaskAdmin.parent_id a).
Proof.
  intros result parent_of step_of.
  assert (Hperm : result ≡ₚ map (TaskAdmin.annotate st) qs).
  { apply merge_sort_Permutation. }
  assert (Hsorted : StronglySorted TaskAdmin.row_le result).
  { apply StronglySorted_merge_sort; apply _. }
  assert (Hann : forall r, r ∈ result ->
            TaskAdmin.parent_id r
              = match t_task_id (TaskAdmin.row r) with
                | Some p => Some p
                | None => t_id (TaskAdmin.row r)
                end
            /\ TaskAdmin.step_date r = Some (step_of (TaskAdmin.row r))).
  { intros r Hr. rewrite Hperm in Hr.
    apply list_elem_of_In, in_map_iff in Hr as (t & <- & _). simpl.
    unfold TaskAdmin.task__next_step_date, step_of. split.
    - destruct (t_task_id t); reflexivity.
    - destruct (task_of st t); reflexivity. }
  split; [|split; [exact Hann|split; [|split; [exact Hsorted|]]]].
  - rewrite (Permutation_map TaskAdmin.row Hperm), map_map.
    rewrite (map_ext _ (fun t => t) (annotate_row st)), map_id. reflexivity.
  - intros i j a b id_a id_b Hij Ha Hb Hida Hidb.
    pose proof (StronglySorted_lookup _ _ Hsorted i j a b Hij Ha Hb) as Hab.
    destruct (Hann a (list_elem_of_lookup_2 _ _ _ Ha)) as [Hpa Hda].
    destruct (Hann b (list_elem_of_lookup_2 _ _ _ Hb)) as [Hpb Hdb].
    assert (Hpa' : TaskAdmin.parent_id a = Some (parent_of (TaskAdmin.row a) id_a)).
    { rewrite Hpa. unfold parent_of. destruct (t_task_id (TaskAdmin.row a)); auto. }
    assert (Hpb' : TaskAdmin.parent_id b = Some (parent_of (TaskAdmin.row b) id_b)).
    { rewrite Hpb. unfold parent_of. destruct (t_task_id (TaskAdmin.row b)); auto. }
    unfold TaskAdmin.row_le, TaskAdmin.order_key in Hab.
    rewrite Hpa', Hpb', Hda, Hdb, Hida, Hidb in Hab. simpl in Hab.
    destruct Hab as [H | [[= Ep] [H | [[= Ed] [H | [= Ei]]]]]].
    + left. exact H.
    + right. split; [exact Ep|]. left. exact H.
    + right. split; [exact Ep|]. right. split; [exact Ed|]. lia.
    + right. split; [exact Ep|]. right. split; [exact Ed|]. lia.
  - intros i j k a b c [Hij Hjk] Ha Hb Hc Hac.
    pose proof (StronglySorted_lookup _ _ Hsorted i j a b Hij Ha Hb) as Hab.
    pose proof (StronglySorted_lookup _ _ Hsorted j k b c Hjk Hb Hc) as Hbc.
    apply row_le_parent_id in Hab, Hbc.
    destruct Hab as [Hab | Hab]; [|congruence].
    exfalso. rewrite <- Hac in Hbc. destruct Hbc as [Hbc | Hbc].
    + apply (sql_lt_irrefl (TaskAdmin.parent_id a)). eapply sql_lt_trans; eauto.
    + rewrite Hbc in Hab. apply (sql_lt_irrefl _ Hab).
Qed.

Lemma get_queryset_ordering_witness :
  let r := TaskAdmin.annotate db_change_list
             (set_next_step_date 30
                (sample_task 3 (Some 1) stage_pending "Check invoices")) in
  (TaskAdmin.parent_id r = Some 1 /\ TaskAdmin.step_date r = Some 10)
  /\ (1 < 1 \/ (1 = 1 /\ (5 < 10 \/ (5 = 10 /\ 2 <= 1))))
  /\ (1 < 1 \/ (1 = 1 /\ (10 < 10 \/ (10 = 10 /\ 1 <= 3))))
  /\ (1 < 4 \/ (1 = 4 /\ (10 < 7 \/ (10 = 7 /\ 3 <= 4)))).
Proof.
  intros r.
  pose proof (get_queryset_ordering db_change_list (Task_objects db_change_list))
    as (_ & Hann & Hord & _).
  split; [apply (Hann r); apply list_elem_of_In; vm_compute; auto|].
  split; [|split].
  - apply (Hord 0%nat 1%nat
             (TaskAdmin.annotate db_change_list
                (set_next_step_date 5
                   (sample_task 2 (Some 1) stage_pending "Collect invoices")))
             (TaskAdmin.annotate db_change_list
                (set_next_step_date 10 (sample_task 1 None stage_pending "Audit")))
             2 1); [lia | reflexivity | reflexivity | reflexivity | reflexivity].
  - apply (Hord 1%nat 2%nat
             (TaskAdmin.annotate db_change_list
                (set_next_step_date 10 (sample_task 1 None stage_pending "Audit")))
             r 1 3); [lia | reflexivity | reflexivity | reflexivity | reflexivity].
  - apply (Hord 2%nat 3%nat r
             (TaskAdmin.annotate db_change_list
                (set_next_step_date 7 (sample_task 4 None stage_pending "Report")))
             3 4); [lia | reflexivity | reflexivity | reflexivity | reflexivity].
Defined.

(** The change list of [db_change_list]: each main task next to its
    sub-tasks, by step date inside a group. *)
Example get_queryset_change_list :
  map (fun r => (t_id (TaskAdmin.row r), TaskAdmin.parent_id r, TaskAdmin.step_date r))
      (TaskAdmin.get_queryset db_change_list (Task_objects db_change_list))
  = [(Some 2, Some 1, Some 5); (Some 1, Some 1, Some 10); (Some 3, Some 1, Some 10);
     (Some 4, Some 4, Some 7); (Some 5, Some 4, Some 7)].
Proof. vm_compute. reflexivity. Qed.

(** * Further properties of the code *)

(** ** Forms *)

(** X1: [TaskBaseForm.clean_responsible] raises 'Please specify a
    responsible' if and only if no user is selected (the entry is
    missing or empty); a selection that is not empty is returned as it
    is. *)
Theorem clean_responsible_raises_iff (self : Form) :
  let responsible := cd_responsible (cleaned_data self) in
  (TaskBaseForm.clean_responsible self
     = Raise (ErrorMessage "Please specify a responsible" invalid)
   <-> responsible = None \/ responsible = Some [])
  /\ (forall l, responsible = Some l -> l <> [] ->
        TaskBaseForm.clean_responsible self = Return l).
Proof.
  intros responsible. subst responsible. unfold TaskBaseForm.clean_responsible.
  destruct (cd_responsible (cleaned_data self)) as [[|u l]|]; split.
  - tauto.
  - intros l' [= <-] H. contradiction.
  - split; [discriminate | intros [H | H]; discriminate].
  - intros l' [= <-] _. reflexivity.
  - tauto.
  - intros l' H. discriminate.
Qed.

Lemma clean_responsible_raises_iff_witness :
  TaskBaseForm.clean_responsible form_two_users = Return [7; 8]
  /\ TaskBaseForm.clean_responsible form_nobody
     = Raise (ErrorMessage "Please specify a responsible" invalid).
Proof.
  split.
  - apply (proj2 (clean_responsible_raises_iff form_two_users));
      [reflexivity | discriminate].
  - apply (proj1 (clean_responsible_raises_iff form_nobody)).
    right. reflexivity.
Defined.

(** X2: [TaskBaseForm.clean] has four outcomes only: it returns the
    cleaned data as they are, or it raises the past-date error on
    next_step_date, the past-date error on due_date or the
    one-responsible error; the first failing check, in that order,
    decides the error. *)
Theorem clean_outcomes (today : date) (self : Form) :
  (TaskBaseForm.clean today self = Return (cleaned_data self)
   \/ TaskBaseForm.clean today self = Raise past_next_step_date
   \/ TaskBaseForm.clean today self = Raise past_due_date
   \/ TaskBaseForm.clean today self = Raise several_responsible)
  /\ (forall e, clean_next_step_date today self = Raise e ->
        TaskBaseForm.clean today self = Raise e)
  /\ (TaskBaseForm.clean today self = Raise several_responsible ->
      clean_next_step_date today self = Return tt
      /\ ~ ("due_date" ∈ changed_data self
            /\ exists d, cd_due_date (cleaned_data self) = Some d /\ d < today)).
Proof.
  split; [|split].
  - destruct (TaskBaseForm_clean_cases today self)
      as [(E & _) | [(E & _) | [(E & _) | (E & _)]]]; rewrite E; auto.
  - intros e He. unfold TaskBaseForm.clean. rewrite He. reflexivity.
  - destruct (TaskBaseForm_clean_cases today self)
      as [(E & _) | [(E & _) | [(E & En & Hd & _) | (E & _)]]];
      rewrite E; try discriminate. auto.
Qed.

Lemma clean_outcomes_witness :
  clean_next_step_date 10 form_two_users = Return tt.
Proof.
  apply (proj2 (proj2 (clean_outcomes 10 form_two_users))).
  vm_compute. reflexivity.
Defined.

(** X3: a submission that changes none of next_step_date, remind_me,
    due_date and responsible always passes [TaskBaseForm.clean],
    whatever dates and users it carries. *)
Theorem clean_passes_unchanged_fields (today : date) (self : Form) :
  "next_step_date" ∉ changed_data self ->
  "remind_me" ∉ changed_data self ->
  "due_date" ∉ changed_data self ->
  "responsible" ∉ changed_data self ->
  clean_next_step_date today self = Return tt
  /\ TaskBaseForm.clean today self = Return (cleaned_data self).
Proof.
  intros H1 H2 H3 H4.
  destruct (TaskBaseForm_clean_cases today self)
    as [(E & En) | [(E & En & Hd) | [(E & En & Hd & Hs) | (E & En & Hd & Hs)]]].
  - destruct (clean_next_step_date_cases today self) as [(_ & Hc & _) | (F & _)];
      [|congruence].
    destruct Hc as [Hc | [Hc _]]; contradiction.
  - destruct Hd as [Hd _]. contradiction.
  - destruct Hs as [Hs _]. contradiction.
  - auto.
Qed.

Lemma clean_passes_unchanged_fields_witness :
  clean_next_step_date 10 form_stale_dates = Return tt
  /\ TaskBaseForm.clean 10 form_stale_dates = Return (cleaned_data form_stale_dates).
Proof.
  apply clean_passes_unchanged_fields;
    intros H; apply list_elem_of_In in H; simpl in H;
    destruct H as [H | []]; discriminate.
Defined.

(** ** Saving a task *)

Lemma Task_save_unfold (self : Task) (st : State) :
  Task.save self st = Model_save (saved_fields self) st.
Proof. reflexivity. Qed.

Lemma find_other_overwrite (i j : pk) (obj : Task) (l : list Task) :
  i <> j -> t_id obj = Some i ->
  List.find (has_id j) (map (fun r => if has_id i r then obj else r) l)
  = List.find (has_id j) l.
Proof.
  intros Hij Hobj.
  assert (Hj : has_id j obj = false).
  { apply not_true_is_false. rewrite has_id_spec. congruence. }
  induction l as [|r l IH]; simpl; [reflexivity|].
  destruct (has_id i r) eqn:Hr.
  - apply has_id_spec in Hr.
    assert (Hjr : has_id j r = false).
    { apply not_true_is_false. rewrite has_id_spec. congruence. }
    rewrite Hj, Hjr. exact IH.
  - destruct (has_id j r); [reflexivity | exact IH].
Qed.

Lemma find_other_app (j : pk) (obj : Task) (l : list Task) :
  has_id j obj = false ->
  List.find (has_id j) (l ++ [obj]) = List.find (has_id j) l.
Proof.
  intros Hj. induction l as [|r l IH]; simpl.
  - rewrite Hj. reflexivity.
  - destruct (has_id j r); [reflexivity | exact IH].
Qed.

(** Persisting an object leaves the rows under every other id alone. *)
Lemma Model_save_other (obj : Task) (st : State) (j : pk) :
  t_id (fst (Model_save obj st)) <> Some j ->
  get_task (snd (Model_save obj st)) j = get_task st j.
Proof.
  unfold Model_save, get_task. destruct (t_id obj) as [i|] eqn:Hid.
  - destruct (existsb (has_id i) (Task_objects st)); simpl; intros Hne.
    + apply find_other_overwrite; congruence.
    + apply find_other_app. apply not_true_is_false.
      rewrite has_id_spec. congruence.
  - simpl. intros Hne. apply find_other_app. apply not_true_is_false.
    rewrite has_id_spec. simpl. exact Hne.
Qed.

(** The rows after persisting an object: the rows before, or the object. *)
Lemma Model_save_rows (obj : Task) (st : State) (r : Task) :
  r ∈ Task_objects (snd (Model_save obj st)) ->
  r ∈ Task_objects st \/ r = fst (Model_save obj st).
Proof.
  unfold Model_save. destruct (t_id obj) as [i|] eqn:Hid.
  - destruct (existsb (has_id i) (Task_objects st)); simpl.
    + rewrite !list_elem_of_In, in_map_iff. intros (r0 & E & Hin).
      destruct (has_id i r0); [right; auto | left; congruence].
    + rewrite elem_of_app, list_elem_of_singleton. tauto.
  - simpl. rewrite elem_of_app, list_elem_of_singleton. tauto.
Qed.

Lemma Model_save_length (obj : Task) (st : State) :
  length (Task_objects (snd (Model_save obj st)))
  = if bool_decide (is_Some (t_id obj ≫= get_task st))
    then length (Task_objects st)
    else S (length (Task_objects st)).
Proof.
  unfold Model_save, get_task. destruct (t_id obj) as [i|] eqn:Hid; simpl.
  - destruct (existsb (has_id i) (Task_objects st)) eqn:Hex; simpl.
    + rewrite length_map.
      apply existsb_exists in Hex as (r & Hin & Hr).
      destruct (List.find (has_id i) (Task_objects st)) as [r'|] eqn:F.
      * rewrite bool_decide_eq_true_2 by eauto. reflexivity.
      * pose proof (find_none _ _ F r Hin). congruence.
    + rewrite length_app. simpl.
      destruct (List.find (has_id i) (Task_objects st)) as [r'|] eqn:F.
      * apply find_some in F as [Hin Hr].
        assert (existsb (has_id i) (Task_objects st) = true)
          by (apply existsb_exists; eauto).
        congruence.
      * rewrite bool_decide_eq_false_2 by (intros [x Hx]; discriminate). lia.
  - rewrite length_app. simpl. lia.
Qed.

Lemma saved_fields_id (self : Task) : t_id (saved_fields self) = t_id self.
Proof.
  unfold saved_fields.
  destruct (t_stage self); simpl;
    destruct (negb (truthy_timedelta (t_lead_time self))); reflexivity.
Qed.

Lemma Task_save_keeps_invariant (self : Task) (st : State) :
  active_follows_stage st -> active_follows_stage (snd (Task.save self st)).
Proof.
  intros Hinv t s Hin Hs.
  rewrite Task_save_unfold in Hin.
  apply Model_save_rows in Hin as [Hin | ->]; [apply (Hinv t s Hin Hs)|].
  rewrite <- Task_save_unfold in *.
  destruct (Task_save_fields self st) as ((_ & Hst & _) & Ha & _).
  rewrite Ha. rewrite Hst in Hs. rewrite Hs. reflexivity.
Qed.

(** ** Auto-closing: when it happens and what it touches *)

Lemma no_active_subtask_spec (st : State) (main_task : Task) (p : pk) :
  t_id main_task = Some p ->
  (existsb t_active (List.filter (is_subtask_of main_task) (Task_objects st)) = false
   <-> forall sub, sub ∈ Task_objects st -> t_task_id sub = Some p ->
                   t_active sub = false).
Proof.
  intros Hid. split.
  - intros Hex sub Hin Hp. apply not_true_is_false. intros Hact.
    assert (existsb t_active
              (List.filter (is_subtask_of main_task) (Task_objects st)) = true);
      [|congruence].
    apply existsb_exists. exists sub. split; [|exact Hact].
    apply filter_In. rewrite <- list_elem_of_In.
    split; [exact Hin | apply (is_subtask_of_spec _ _ _ Hid), Hp].
  - intros H. apply not_true_is_false. intros Hex.
    apply existsb_exists in Hex as (sub & Hin & Hact).
    apply filter_In in Hin as [Hin Hsub].
    apply (is_subtask_of_spec _ _ _ Hid) in Hsub. apply list_elem_of_In in Hin.
    rewrite (H sub Hin Hsub) in Hact. discriminate.
Qed.

Lemma responsible_match_spec (st : State) (main_task : Task) (p : pk) :
  t_id main_task = Some p ->
  (list_to_set (responsible_all st main_task)
   =@{gset pk}
   list_to_set
     (responsible_in st
        (List.filter (fun t => stage__done t && negb (t_active t))
                     (List.filter (is_subtask_of main_task) (Task_objects st))))
   <-> forall u, (p, u) ∈ Task_responsible st <-> done_responsible st p u).
Proof.
  intros Hid. rewrite set_eq.
  apply forall_proper. intros u.
  rewrite !elem_of_list_to_set, (responsible_all_spec st main_task p u Hid).
  rewrite responsible_in_spec. unfold done_responsible.
  assert (Hdone : forall sub,
             sub ∈ List.filter (fun t => stage__done t && negb (t_active t))
                     (List.filter (is_subtask_of main_task) (Task_objects st))
             <-> sub ∈ Task_objects st /\ t_task_id sub = Some p
                 /\ stage__done sub = true /\ t_active sub = false).
  { intros sub. rewrite !list_elem_of_In, !filter_In, andb_true_iff, negb_true_iff.
    rewrite (is_subtask_of_spec _ _ _ Hid). tauto. }
  split; intros H; rewrite H; clear H; split.
  - intros (sub & i & Hin & Hi & Hr). apply Hdone in Hin. exists sub, i. tauto.
  - intros (sub & i & Hin & Hp & Hd & Ha & Hi & Hr). exists sub, i.
    rewrite Hdone. tauto.
  - intros (sub & i & Hin & Hp & Hd & Ha & Hi & Hr). exists sub, i.
    rewrite Hdone. tauto.
  - intros (sub & i & Hin & Hi & Hr). apply Hdone in Hin. exists sub, i. tauto.
Qed.

(** [check_and_deacte_main_task] either leaves the database as it is
    or, all its conditions met, saves the main task with the fields of
    a closed task. *)
Lemma check_and_deacte_cases (today : date) (self : Task) (st : State) :
  Task.check_and_deacte_main_task today self st = (tt, st)
  \/ exists p main_task main_stage done_stage,
       t_task_id self = Some p /\ get_task st p = Some main_task
       /\ t_stage main_task = Some main_stage
       /\ (s_default main_stage = true \/ s_in_progress main_stage = true)
       /\ (forall sub, sub ∈ Task_objects st -> t_task_id sub = Some p ->
                       t_active sub = false)
       /\ (forall u, (p, u) ∈ Task_responsible st <-> done_responsible st p u)
       /\ List.find s_done (TaskStage_objects st) = Some done_stage
       /\ Task.check_and_deacte_main_task today self st
          = (tt, snd (Task.save (closed_fields today done_stage main_task) st)).
Proof.
  unfold Task.check_and_deacte_main_task, bind, get_state, task_of.
  destruct (t_task_id self) as [p|] eqn:Hp; [|left; reflexivity].
  destruct (get_task st p) as [main_task|] eqn:Hmain; [|left; reflexivity].
  pose proof (get_task_id _ _ _ Hmain) as Hid.
  destruct (t_stage main_task) as [main_stage|] eqn:Hstage; [|left; reflexivity].
  destruct (s_default main_stage || s_in_progress main_stage) eqn:Hflag;
    [|left; reflexivity].
  destruct (existsb t_active
              (List.filter (is_subtask_of main_task) (Task_objects st))) eqn:Hact;
    [left; reflexivity|]. simpl.
  destruct (bool_decide _) eqn:Hresp; [|left; reflexivity].
  destruct (List.find s_done (TaskStage_objects st)) as [done_stage|] eqn:Hdone;
    [|left; reflexivity].
  right. exists p, main_task, main_stage, done_stage.
  apply orb_true_iff in Hflag.
  pose proof (proj1 (no_active_subtask_spec st main_task p Hid) Hact) as Hact'.
  apply bool_decide_eq_true in Hresp.
  pose proof (proj1 (responsible_match_spec st main_task p Hid) Hresp) as Hresp'.
  repeat (split; [assumption || reflexivity|]).
  unfold closed_fields.
  destruct (Task.save _ st) as [closed st1]. reflexivity.
Qed.

Lemma Task_save_other (self : Task) (st : State) (i j : pk) :
  t_id self = Some i -> i <> j ->
  get_task (snd (Task.save self st)) j = get_task st j.
Proof.
  intros Hi Hij. rewrite Task_save_unfold. apply Model_save_other.
  destruct (Model_save_persists (saved_fields self) st) as (k & E & Hor & _).
  rewrite E. simpl. rewrite saved_fields_id in Hor.
  destruct Hor; congruence.
Qed.

(** X7: [check_and_deacte_main_task] writes at most the row of the
    main task: the rows under every other id are as before, no row is
    added or removed, and the stages, the responsible users, the files
    and the notices are untouched. *)
Theorem auto_close_touches_main_task_only (today : date) (self : Task) (st : State) :
  let st' := exec (Task.check_and_deacte_main_task today self) st in
  (forall j, t_task_id self <> Some j -> get_task st' j = get_task st j)
  /\ length (Task_objects st') = length (Task_objects st)
  /\ TaskStage_objects st' = TaskStage_objects st
  /\ Task_responsible st' = Task_responsible st
  /\ TheFile_objects st' = TheFile_objects st
  /\ closed_notices st' = closed_notices st.
Proof.
  intros st'. subst st'. unfold exec.
  destruct (check_and_deacte_cases today self st)
    as [E | (p & main_task & ms & ds & Hp & Hmain & _ & _ & _ & _ & _ & E)];
    rewrite E; simpl; [auto 10|].
  pose proof (get_task_id _ _ _ Hmain) as Hid.
  split.
  { intros j Hj. apply (Task_save_other _ st p j); [exact Hid | congruence]. }
  split.
  { rewrite Task_save_unfold, Model_save_length, saved_fields_id. simpl.
    rewrite Hid. simpl. rewrite Hmain.
    rewrite bool_decide_eq_true_2 by eauto. reflexivity. }
  destruct (Task_save_fields (closed_fields today ds main_task) st)
    as (_ & _ & _ & _ & H).
  exact H.
Qed.

Lemma auto_close_touches_main_task_only_witness :
  get_task (exec (Task.check_and_deacte_main_task 100
                    (sample_task 2 (Some 1) stage_done "Collect invoices"))
                 db_all_done) 3
  = get_task db_all_done 3.
Proof.
  apply (proj1 (auto_close_touches_main_task_only 100
                  (sample_task 2 (Some 1) stage_done "Collect invoices")
                  db_all_done)).
  simpl. discriminate.
Defined.

(** X8: what keeps a main task open.  [check_and_deacte_main_task]
    leaves the database as it is when the task has no main task, when
    the main task has no stage or a stage that is neither default nor
    in progress, when a sub-task of the main task is still active,
    when some user is responsible for the main task without being
    responsible for a done sub-task (or the other way round), and when
    no stage is marked done. *)
Theorem auto_close_blocked (today : date) (self : Task) (st : State) :
  t_task_id self = None
  \/ (exists p main_task,
        t_task_id self = Some p /\ get_task st p = Some main_task
        /\ (t_stage main_task = None
            \/ (exists s, t_stage main_task = Some s
                          /\ s_default s = false /\ s_in_progress s = false)
            \/ (exists sub, sub ∈ Task_objects st /\ t_task_id sub = Some p
                            /\ t_active sub = true)
            \/ (exists u, ~ ((p, u) ∈ Task_responsible st <-> done_responsible st p u))
            \/ (forall s, s ∈ TaskStage_objects st -> s_done s = false))) ->
  Task.check_and_deacte_main_task today self st = (tt, st).
Proof.
  intros Hblock.
  destruct (check_and_deacte_cases today self st)
    as [E | (p & main_task & ms & ds & Hp & Hmain & Hs & Hflag & Hact & Hresp
             & Hdone & _)];
    [exact E | exfalso].
  destruct Hblock as [Hnone | (p' & main' & Hp' & Hmain' & Hwhy)]; [congruence|].
  assert (p' = p) as -> by congruence.
  assert (main' = main_task) as -> by congruence.
  destruct Hwhy as [H | [(s & H & Hd & Hi) | [(sub & Hin & Hsub & Ha) | [(u & H) | H]]]].
  - congruence.
  - assert (s = ms) as -> by congruence. destruct Hflag; congruence.
  - rewrite (Hact sub Hin Hsub) in Ha. discriminate.
  - apply H, Hresp.
  - apply find_some in Hdone as [Hin Hd]. apply list_elem_of_In in Hin.
    rewrite (H ds Hin) in Hd. discriminate.
Qed.

Lemma auto_close_blocked_witness :
  Task.check_and_deacte_main_task 100
    (sample_task 2 (Some 1) stage_done "Collect invoices") db_open_subtask
  = (tt, db_open_subtask).
Proof.
  apply auto_close_blocked. right.
  exists 1, (sample_task 1 None stage_pending "Audit").
  split; [reflexivity|]. split; [reflexivity|].
  right. right. left.
  exists (sample_task 3 (Some 1) stage_in_progress "Check invoices").
  split; [apply list_elem_of_In; simpl; auto|]. split; reflexivity.
Defined.

(** X9: auto-closing agrees with the closing guard.  In a database
    where every row has the active flag of its stage, whenever
    [check_and_deacte_main_task] changes the row of the main task, the
    new row is accepted by the guard of [Task.clean]: the validation of
    the closed task is that of the base class. *)
Theorem auto_closed_task_passes_clean (super_clean : Task -> Result unit)
        (today : date) (self : Task) (st : State) (p : pk) (closed : Task) :
  active_follows_stage st ->
  t_task_id self = Some p ->
  let st' := exec (Task.check_and_deacte_main_task today self) st in
  get_task st' p = Some closed ->
  get_task st p <> Some closed ->
  Task.clean super_clean st' closed = super_clean closed.
Proof.
  intros Hinv Hp st' Hclosed Hchanged. subst st'. unfold exec in *.
  destruct (check_and_deacte_cases today self st)
    as [E | (p' & main_task & ms & ds & Hp' & Hmain & _ & _ & Hact & _ & _ & E)];
    rewrite E in Hclosed |- *; simpl in *; [contradiction|].
  assert (p' = p) as -> by congruence.
  pose proof (get_task_id _ _ _ Hmain) as Hid.
  destruct (Task_save_fields (closed_fields today ds main_task) st)
    as ((Htask & _) & _ & _ & (i & Hi & Hor & Hget) & _).
  assert (i = p) as -> by (destruct Hor as [H | H]; simpl in H; congruence).
  assert (closed = fst (Task.save (closed_fields today ds main_task) st))
    as Hsaved by congruence.
  unfold Task.clean.
  destruct (truthy_id (t_id closed) && bool_decide (t_task_id closed = None))
    eqn:Hguard; [|reflexivity].
  apply andb_true_iff in Hguard as [_ Hmainless].
  apply bool_decide_eq_true in Hmainless.
  destruct (t_stage closed) as [stage|]; [|reflexivity].
  destruct (negb (s_active stage)); [|reflexivity].
  assert (Hnone : existsb (fun t => bool_decide (t_task_id t = t_id closed)
                                    && stage__active t)
                    (Task_objects (snd (Task.save (closed_fields today ds main_task) st)))
                  = false); [|rewrite Hnone; reflexivity].
  apply not_true_is_false. intros Hex.
  apply existsb_exists in Hex as (sub & Hin & Hsub).
  apply andb_true_iff in Hsub as [Hparent Hstage].
  apply bool_decide_eq_true in Hparent.
  rewrite Hsaved, Hi in Hparent.
  apply list_elem_of_In in Hin. rewrite Task_save_unfold in Hin.
  apply Model_save_rows in Hin as [Hin | ->].
  - unfold stage__active in Hstage.
    destruct (t_stage sub) as [s|] eqn:Hs; [|discriminate].
    rewrite <- (Hinv sub s Hin Hs), (Hact sub Hin Hparent) in Hstage. discriminate.
  - rewrite <- Task_save_unfold, <- Hsaved in Hparent. congruence.
Qed.

Lemma auto_closed_task_passes_clean_witness :
  Task.clean accept_all
    (exec (Task.check_and_deacte_main_task 100
             (sample_task 2 (Some 1) stage_done "Collect invoices")) db_all_done)
    closed_audit
  = accept_all closed_audit.
Proof.
  apply (auto_closed_task_passes_clean accept_all 100
           (sample_task 2 (Some 1) stage_done "Collect invoices") db_all_done 1).
  - intros t s Hin Hs. apply list_elem_of_In in Hin. simpl in Hin.
    destruct Hin as [<- | [<- | [<- | []]]]; injection Hs as <-; reflexivity.
  - reflexivity.
  - vm_compute. reflexivity.
  - vm_compute. discriminate.
Defined.

(** ** Copying attachments: what the call leaves behind *)

Lemma exec_bind {A B : Type} (c : M A) (k : A -> M B) (st : State) :
  exec (bind c k) st = exec (k (fst (c st))) (exec c st).
Proof. unfold exec, bind. destruct (c st) as [a st1]. reflexivity. Qed.

(** [copy_files_to_maintask] without a main task to copy to, or with
    one and the rows it creates for it. *)
Lemma copy_files_cases (self : Task) (st : State) :
  (Task.copy_files_to_maintask self st = (tt, st)
   /\ (t_task_id self = None \/ exists p, t_task_id self = Some p /\ get_task st p = None))
  \/ exists p main_task created,
       t_task_id self = Some p /\ get_task st p = Some main_task
       /\ Task.copy_files_to_maintask self st
          = (tt, set_TheFile_objects (TheFile_objects st ++ created) st)
       /\ map f_file created
          = List.filter
              (fun file => negb (bool_decide
                                   (file ∈ map f_file (files_all st main_task))))
              (map f_file (files_all st self))
       /\ Forall (fun f => f_content_type f = CT_Task /\ f_object_id f = p) created.
Proof.
  unfold Task.copy_files_to_maintask, bind, get_state.
  destruct (t_task_id self) as [p|] eqn:Hp; [|left; auto].
  destruct (get_task st p) as [main_task|] eqn:Hmain; [|left; eauto].
  right. exists p, main_task.
  match goal with
  | |- context [for_each ?l ?body] =>
      destruct (for_each_create p l st) as (created & E & Hfiles & Hattached & _);
      assert (Hloop : match l with
                      | [] => ret tt
                      | _ :: _ => for_each l body
                      end = for_each l body) by (destruct l; reflexivity)
  end.
  exists created. rewrite Hloop, E.
  pose proof (map_filter_file
                (fun file => negb (bool_decide
                                     (file ∈ map f_file (files_all st main_task))))
                (files_all st self)) as Hmap.
  simpl in Hmap. rewrite Hmap in Hfiles. auto.
Qed.

Lemma files_all_created (st : State) (t : Task) (p : pk) (created : list TheFile) :
  t_id t = Some p ->
  Forall (fun f => f_content_type f = CT_Task /\ f_object_id f = p) created ->
  files_all (set_TheFile_objects (TheFile_objects st ++ created) st) t
  = (files_all st t ++ created)%list.
Proof.
  intros Hid Hattached. unfold files_all. simpl. rewrite List.filter_app. f_equal.
  apply has_id_spec in Hid.
  induction Hattached as [|f l [H1 H2] _ IH]; simpl; [reflexivity|].
  rewrite H1, H2, Hid, bool_decide_eq_true_2 by reflexivity. simpl.
  rewrite IH. reflexivity.
Qed.

Lemma files_all_after (st : State) (t : Task) (created : list TheFile) (f : TheFile) :
  f ∈ files_all (set_TheFile_objects (TheFile_objects st ++ created) st) t ->
  f ∈ files_all st t \/ f ∈ created.
Proof.
  unfold files_all. simpl.
  rewrite List.filter_app, elem_of_app, !list_elem_of_In, !filter_In. tauto.
Qed.

Lemma filter_none {A : Type} (f : A -> bool) (l : list A) :
  (forall x, x ∈ l -> f x = false) -> List.filter f l = [].
Proof.
  induction l as [|x l IH]; simpl; [reflexivity|]. intros H.
  rewrite (H x) by apply list_elem_of_here.
  apply IH. intros y Hy. apply H, list_elem_of_further, Hy.
Qed.

(** Once the files are copied, every file of the sub-task is among the
    files of the main task. *)
Lemma copied_files_cover (self : Task) (st : State) (p : pk)
      (main_task : Task) (created : list TheFile) (f : TheFile) :
  get_task st p = Some main_task ->
  map f_file created
  = List.filter
      (fun file => negb (bool_decide (file ∈ map f_file (files_all st main_task))))
      (map f_file (files_all st self)) ->
  Forall (fun f => f_content_type f = CT_Task /\ f_object_id f = p) created ->
  f ∈ files_all (set_TheFile_objects (TheFile_objects st ++ created) st) self ->
  f_file f ∈ map f_file
                (files_all (set_TheFile_objects (TheFile_objects st ++ created) st)
                           main_task).
Proof.
  intros Hmain Hfiles Hattached Hf.
  rewrite (files_all_created st main_task p created (get_task_id _ _ _ Hmain) Hattached).
  rewrite map_app, elem_of_app.
  apply files_all_after in Hf as [Hf | Hf].
  - destruct (decide (f_file f ∈ map f_file (files_all st main_task))) as [Hin | Hout];
      [left; exact Hin | right].
    rewrite Hfiles. apply list_elem_of_In, filter_In. split.
    + apply in_map, list_elem_of_In, Hf.
    + rewrite negb_true_iff, bool_decide_eq_false. exact Hout.
  - right. apply list_elem_of_In, in_map, list_elem_of_In, Hf.
Qed.

(** X10: after [copy_files_to_maintask] on a sub-task, every file of
    the sub-task is among the files of its main task, and the main task
    has kept the files it had. *)
Theorem copied_files_reach_main_task (self : Task) (st : State) (p : pk)
        (main_task : Task) :
  t_task_id self = Some p ->
  get_task st p = Some main_task ->
  let st' := exec (Task.copy_files_to_maintask self) st in
  (forall f, f ∈ files_all st self ->
             f_file f ∈ map f_file (files_all st' main_task))
  /\ (forall f, f ∈ files_all st main_task -> f ∈ files_all st' main_task)
  /\ Task_objects st' = Task_objects st.
Proof.
  intros Hp Hmain st'. subst st'. unfold exec.
  destruct (copy_files_cases self st)
    as [(E & [Hn | (p' & Hp' & Hn)]) | (p' & main' & created & Hp' & Hmain' & E & Hfiles
                                        & Hattached)];
    try congruence.
  assert (p' = p) as -> by congruence.
  assert (main' = main_task) as -> by congruence.
  rewrite E. simpl.
  split; [|split; [|reflexivity]].
  - intros f Hf.
    apply (copied_files_cover self st p main_task created f Hmain Hfiles Hattached).
    unfold files_all in *. simpl. rewrite List.filter_app, elem_of_app. left. exact Hf.
  - intros f Hf.
    rewrite (files_all_created st main_task p created (get_task_id _ _ _ Hmain) Hattached).
    apply elem_of_app. left. exact Hf.
Qed.

Lemma copied_files_reach_main_task_witness :
  let self := sample_task 2 (Some 1) stage_in_progress "Collect invoices" in
  let main_task := sample_task 1 None stage_pending "Audit" in
  "docs/invoice.pdf"
  ∈ map f_file (files_all (exec (Task.copy_files_to_maintask self) db_with_files)
                          main_task).
Proof.
  intros self main_task.
  apply (proj1 (copied_files_reach_main_task self db_with_files 1 main_task
                  eq_refl eq_refl)
               {| f_id := 1; f_file := "docs/invoice.pdf";
                  f_content_type := CT_Task; f_object_id := 2 |}).
  apply list_elem_of_In. simpl. auto.
Defined.

(** X11: [copy_files_to_maintask] is idempotent: a second call right
    after the first creates nothing and leaves the database as it
    is. *)
Theorem copy_files_twice (self : Task) (st : State) :
  let st' := exec (Task.copy_files_to_maintask self) st in
  Task.copy_files_to_maintask self st' = (tt, st').
Proof.
  intros st'. subst st'. unfold exec.
  destruct (copy_files_cases self st)
    as [(E & _) | (p & main_task & created & Hp & Hmain & E & Hfiles & Hattached)];
    rewrite E; simpl; [exact E|].
  set (st' := set_TheFile_objects (TheFile_objects st ++ created) st).
  unfold Task.copy_files_to_maintask, bind, get_state. rewrite Hp.
  change (get_task st' p) with (get_task st p). rewrite Hmain.
  rewrite filter_none; [reflexivity|].
  intros f Hf. rewrite negb_false_iff, bool_decide_eq_true.
  apply (copied_files_cover self st p main_task created f Hmain Hfiles Hattached Hf).
Qed.

(** ** The active flag stays in step with the stage *)

Lemma invariant_same_tasks (st st' : State) :
  Task_objects st' = Task_objects st ->
  active_follows_stage st -> active_follows_stage st'.
Proof. unfold active_follows_stage. intros ->. auto. Qed.

Lemma check_and_deacte_keeps_invariant (today : date) (self : Task) (st : State) :
  active_follows_stage st ->
  active_follows_stage (exec (Task.check_and_deacte_main_task today self) st).
Proof.
  intros Hinv. unfold exec.
  destruct (check_and_deacte_cases today self st)
    as [E | (p & main_task & ms & ds & _ & _ & _ & _ & _ & _ & _ & E)];
    rewrite E; simpl; [exact Hinv|].
  apply Task_save_keeps_invariant, Hinv.
Qed.

Lemma copy_files_same_tasks (self : Task) (st : State) :
  Task_objects (exec (Task.copy_files_to_maintask self) st) = Task_objects st.
Proof.
  unfold exec.
  destruct (copy_files_cases self st)
    as [(E & _) | (p & main_task & created & _ & _ & E & _)];
    rewrite E; reflexivity.
Qed.

Lemma cascade_keeps_invariant (obj main_task : Task) (st : State) :
  active_follows_stage st ->
  active_follows_stage (snd (TaskAdmin.save_related_cascade obj main_task st)).
Proof.
  intros Hinv. unfold TaskAdmin.save_related_cascade.
  destruct (t_stage main_task) as [ms|]; [|exact Hinv].
  destruct (t_stage obj) as [os|]; [|exact Hinv].
  destruct (s_default ms && s_in_progress os); [|exact Hinv].
  apply Task_save_keeps_invariant, Hinv.
Qed.

Lemma closed_step_keeps_invariant (today : date) (obj : Task) (st : State) :
  active_follows_stage st ->
  active_follows_stage (exec (TaskAdmin.save_related_closed today obj) st).
Proof.
  intros Hinv. unfold TaskAdmin.save_related_closed.
  destruct (negb (t_active obj)); [|exact Hinv].
  rewrite !exec_bind.
  set (st1 := exec (Task.copy_files_to_maintask obj) st).
  set (st2 := exec (Task.check_and_deacte_main_task today obj) st1).
  assert (H2 : active_follows_stage st2).
  { apply check_and_deacte_keeps_invariant.
    apply (invariant_same_tasks st st1); [apply copy_files_same_tasks | exact Hinv]. }
  unfold get_state at 1 2. simpl.
  destruct (task_of st2 obj) as [m|]; [|exact H2].
  destruct (negb (t_active m)); exact H2.
Qed.

(** X12: the methods that write to the task table keep the invariant
    that every row with a stage has the active flag of its stage:
    [Task.save], [check_and_deacte_main_task], [copy_files_to_maintask]
    and, when the base class keeps it, [TaskAdmin.save_related]. *)
Theorem methods_keep_active_in_step (super_save_related : M unit) (today : date)
        (self : Task) (st : State) :
  active_follows_stage st ->
  active_follows_stage (snd (Task.save self st))
  /\ active_follows_stage (exec (Task.check_and_deacte_main_task today self) st)
  /\ active_follows_stage (exec (Task.copy_files_to_maintask self) st)
  /\ ((forall s, active_follows_stage s ->
                 active_follows_stage (exec super_save_related s)) ->
      active_follows_stage
        (exec (TaskAdmin.save_related super_save_related today self) st)).
Proof.
  intros Hinv.
  split; [apply Task_save_keeps_invariant, Hinv|].
  split; [apply check_and_deacte_keeps_invariant, Hinv|].
  split.
  { apply (invariant_same_tasks st); [apply copy_files_same_tasks | exact Hinv]. }
  intros Hsup. unfold TaskAdmin.save_related.
  rewrite !exec_bind. unfold get_state at 1 2. simpl.
  specialize (Hsup st Hinv).
  set (st1 := exec super_save_related st) in *.
  destruct (task_of st1 self) as [main_task|]; [|exact Hsup].
  rewrite exec_bind. apply closed_step_keeps_invariant.
  apply cascade_keeps_invariant, Hsup.
Qed.

Lemma methods_keep_active_in_step_witness :
  active_follows_stage
    (exec (TaskAdmin.save_related save_nothing 100
             (sample_task 3 (Some 1) stage_done "Check invoices")) db_all_done).
Proof.
  assert (Hinv : active_follows_stage db_all_done).
  { intros t s Hin Hs. apply list_elem_of_In in Hin. simpl in Hin.
    destruct Hin as [<- | [<- | [<- | []]]]; injection Hs as <-; reflexivity. }
  apply (methods_keep_active_in_step save_nothing 100
           (sample_task 3 (Some 1) stage_done "Check invoices") db_all_done Hinv).
  intros s Hs. exact Hs.
Defined.

(** ** The change list does not depend on the order of the base queryset *)

Lemma sql_lt_asym (a b : option Z) : sql_lt a b -> sql_lt b a -> False.
Proof. intros H1 H2. apply (sql_lt_irrefl a). eapply sql_lt_trans; eauto. Qed.

Lemma sql_order3_antisym (k1 k2 : option Z * option Z * option Z) :
  sql_order3 k1 k2 -> sql_order3 k2 k1 -> k1 = k2.
Proof.
  destruct k1 as [[a1 b1] c1], k2 as [[a2 b2] c2]. simpl.
  intros [Ha | [-> [Hb | [-> [Hc | ->]]]]] [Ha' | [Ea [Hb' | [Eb [Hc' | Ec]]]]];
    subst; try reflexivity; exfalso;
    eauto using sql_lt_asym, sql_lt_irrefl.
Qed.

Lemma NoDup_map_inj {A B : Type} (f : A -> B) (l : list A) (x y : A) :
  NoDup (map f l) -> x ∈ l -> y ∈ l -> f x = f y -> x = y.
Proof.
  induction l as [|a l IH]; simpl; intros Hnd Hx Hy E.
  - inversion Hx.
  - apply NoDup_cons in Hnd as [Ha Hnd].
    apply elem_of_cons in Hx as [-> | Hx], Hy as [-> | Hy]; auto.
    + exfalso. apply Ha. rewrite E. apply list_elem_of_In, in_map, list_elem_of_In, Hy.
    + exfalso. apply Ha. rewrite <- E. apply list_elem_of_In, in_map, list_elem_of_In, Hx.
Qed.

(** X13: the change list is determined by the tasks, not by the order
    in which the base queryset yields them: for tasks with distinct
    ids, [get_queryset] gives the same list on every arrangement of
    the queryset. *)
Theorem get_queryset_order_independent (st : State) (qs1 qs2 : list Task) :
  NoDup (map t_id qs1) ->
  qs1 ≡ₚ qs2 ->
  TaskAdmin.get_queryset st qs1 = TaskAdmin.get_queryset st qs2.
Proof.
  intros Hnd Hperm. unfold TaskAdmin.get_queryset.
  apply (StronglySorted_unique_strong TaskAdmin.row_le).
  - intros r1 r2 H1 H2 H12 H21.
    rewrite merge_sort_Permutation in H1, H2.
    apply list_elem_of_In, in_map_iff in H1 as (t1 & <- & Ht1).
    apply list_elem_of_In, in_map_iff in H2 as (t2 & <- & Ht2).
    pose proof (sql_order3_antisym _ _ H12 H21) as E.
    unfold TaskAdmin.order_key in E. simpl in E.
    assert (Eid : t_id t1 = t_id t2) by congruence.
    apply list_elem_of_In in Ht1, Ht2. rewrite <- Hperm in Ht2.
    rewrite (NoDup_map_inj t_id qs1 t1 t2 Hnd Ht1 Ht2 Eid). reflexivity.
  - apply StronglySorted_merge_sort; apply _.
  - apply StronglySorted_merge_sort; apply _.
  - rewrite !merge_sort_Permutation. apply Permutation_map, Hperm.
Qed.

Lemma get_queryset_order_independent_witness :
  TaskAdmin.get_queryset db_change_list (Task_objects db_change_list)
  = TaskAdmin.get_queryset db_change_list (rev (Task_objects db_change_list)).
Proof.
  apply get_queryset_order_independent.
  - vm_compute. repeat constructor; intros H; apply list_elem_of_In in H;
      simpl in H; intuition discriminate.
  - apply Permutation_rev.
Defined.

(** ** The admin: who is told that a task is closed *)

Lemma Task_save_notices (self : Task) (st : State) :
  closed_notices (snd (Task.save self st)) = closed_notices st
  /\ TheFile_objects (snd (Task.save self st)) = TheFile_objects st.
Proof.
  destruct (Task_save_fields self st) as (_ & _ & _ & _ & _ & _ & Hf & Hn). auto.
Qed.

Lemma check_and_deacte_notices (today : date) (self : Task) (st : State) :
  closed_notices (exec (Task.check_and_deacte_main_task today self) st)
  = closed_notices st.
Proof.
  unfold exec.
  destruct (check_and_deacte_cases today self st)
    as [E | (p & main_task & ms & ds & _ & _ & _ & _ & _ & _ & _ & E)];
    rewrite E; simpl; [reflexivity | apply Task_save_notices].
Qed.

Lemma copy_files_notices (self : Task) (st : State) :
  closed_notices (exec (Task.copy_files_to_maintask self) st) = closed_notices st.
Proof.
  unfold exec.
  destruct (copy_files_cases self st)
    as [(E & _) | (p & main_task & created & _ & _ & E & _)];
    rewrite E; reflexivity.
Qed.

Lemma cascade_notices (obj main_task : Task) (st : State) :
  closed_notices (snd (TaskAdmin.save_related_cascade obj main_task st))
  = closed_notices st
  /\ TheFile_objects (snd (TaskAdmin.save_related_cascade obj main_task st))
     = TheFile_objects st.
Proof.
  unfold TaskAdmin.save_related_cascade.
  destruct (t_stage main_task) as [ms|]; [|auto].
  destruct (t_stage obj) as [os|]; [|auto].
  destruct (s_default ms && s_in_progress os); [|auto].
  apply Task_save_notices.
Qed.

(** The closing step sends at most one notice, for the main task and
    only when the sub-task and then the main task are inactive. *)
Lemma closed_step_notices (today : date) (obj : Task) (st : State) :
  let st' := exec (TaskAdmin.save_related_closed today obj) st in
  (closed_notices st' = closed_notices st
   /\ (t_active obj = true -> st' = st))
  \/ exists p m,
       t_task_id obj = Some p /\ t_active obj = false
       /\ get_task st' p = Some m /\ t_active m = false
       /\ closed_notices st' = (closed_notices st ++ [p])%list.
Proof.
  intros st'. subst st'. unfold TaskAdmin.save_related_closed.
  destruct (t_active obj) eqn:Hobj; simpl; [left; auto|].
  rewrite !exec_bind.
  set (st1 := exec (Task.copy_files_to_maintask obj) st).
  set (st2 := exec (Task.check_and_deacte_main_task today obj) st1).
  assert (Hn : closed_notices st2 = closed_notices st).
  { subst st2 st1. rewrite check_and_deacte_notices, copy_files_notices. reflexivity. }
  unfold get_state at 1 2. simpl. unfold task_of.
  destruct (t_task_id obj) as [p|] eqn:Hp;
    [|left; split; [exact Hn | discriminate]].
  destruct (get_task st2 p) as [m|] eqn:Hm;
    [|left; split; [exact Hn | discriminate]].
  destruct (t_active m) eqn:Ha; simpl;
    [left; split; [exact Hn | discriminate]|].
  right. exists p, m. unfold exec, notify_task_or_project_closed. simpl.
  rewrite (get_task_id _ _ _ Hm), Hn. auto.
Qed.

(** X14: [TaskAdmin.save_related] sends at most one closed-task notice,
    and only for a main task that is inactive once the inactive
    sub-task has been handled; saving an active sub-task sends no
    notice and copies no file, and saving a task without a main task
    does nothing beyond the base class. *)
Theorem save_related_notifies_closed_main (super_save_related : M unit)
        (today : date) (obj : Task) (st : State) :
  let st1 := exec super_save_related st in
  let st' := exec (TaskAdmin.save_related super_save_related today obj) st in
  (closed_notices st' = closed_notices st1
   \/ exists p m,
        t_task_id obj = Some p /\ t_active obj = false
        /\ get_task st' p = Some m /\ t_active m = false
        /\ closed_notices st' = (closed_notices st1 ++ [p])%list)
  /\ (t_active obj = true ->
      closed_notices st' = closed_notices st1
      /\ TheFile_objects st' = TheFile_objects st1)
  /\ (t_task_id obj = None -> st' = st1).
Proof.
  intros st1 st'. subst st' st1. unfold TaskAdmin.save_related.
  rewrite exec_bind. generalize (exec super_save_related st). intros st1.
  rewrite exec_bind.
  change (exec get_state st1) with st1. change (fst (get_state st1)) with st1.
  cbv beta.
  destruct (task_of st1 obj) as [main_task|] eqn:Hmain.
  2:{ split; [left; reflexivity|].
      split; [intros _; split; reflexivity | reflexivity]. }
  assert (Hp : exists p, t_task_id obj = Some p).
  { unfold task_of in Hmain. destruct (t_task_id obj); [eauto | discriminate]. }
  destruct Hp as [p Hp].
  rewrite exec_bind.
  destruct (cascade_notices obj main_task st1) as [Hn2 Hf2].
  fold (exec (TaskAdmin.save_related_cascade obj main_task) st1) in Hn2, Hf2.
  set (st2 := exec (TaskAdmin.save_related_cascade obj main_task) st1) in *.
  destruct (closed_step_notices today obj st2)
    as [(Hn & Hact) | (p' & m & Hp' & Hobj & Hm & Ha & Hn)].
  - split; [left; congruence|]. split; [|congruence].
    intros Hobj. rewrite (Hact Hobj). auto.
  - split.
    + right. exists p', m. rewrite <- Hn2. auto 10.
    + split; congruence.
Qed.

Lemma save_related_notifies_closed_main_witness :
  let obj := sample_task 3 (Some 1) stage_in_progress "Check invoices" in
  let st' := exec (TaskAdmin.save_related save_nothing 100 obj) db_open_subtask in
  closed_notices st' = closed_notices (exec save_nothing db_open_subtask)
  /\ TheFile_objects st' = TheFile_objects (exec save_nothing db_open_subtask).
Proof.
  intros obj st'.
  apply (proj1 (proj2 (save_related_notifies_closed_main save_nothing 100 obj
                         db_open_subtask))).
  reflexivity.
Defined.

(** ** The admin: saving the task itself *)

(** X15: what [TaskAdmin.save_model] hands to the base class.  With
    '_completed' posted the object gets the first stage marked done
    and today as closing date; otherwise it keeps its stage, or gets
    the first default stage when it has none, and a stage that is not
    active stamps today as closing date; an object with an active
    stage and no '_completed' is handed over untouched.  No other
    field is changed. *)
Theorem save_model_stage_and_closing_date (super_save_model : Task -> M Task)
        (today : date) (POST : list string) (obj : Task) (st : State) :
  exists obj',
    save_model super_save_model today POST obj st = super_save_model obj' st
    /\ ("_completed" ∈ POST ->
        t_stage obj' = List.find s_done (TaskStage_objects st)
        /\ t_closing_date obj' = Some today)
    /\ ("_completed" ∉ POST ->
        (forall s, t_stage obj = Some s -> t_stage obj' = Some s)
        /\ (t_stage obj = None ->
            t_stage obj' = List.find s_default (TaskStage_objects st))
        /\ (forall s, t_stage obj' = Some s ->
              t_closing_date obj'
              = if s_active s then t_closing_date obj else Some today)
        /\ (forall s, t_stage obj = Some s -> s_active s = true -> obj' = obj))
    /\ (t_id obj' = t_id obj /\ t_task_id obj' = t_task_id obj
        /\ t_active obj' = t_active obj /\ t_lead_time obj' = t_lead_time obj
        /\ t_name obj' = t_name obj /\ t_next_step obj' = t_next_step obj
        /\ t_next_step_date obj' = t_next_step_date obj
        /\ t_workflow obj' = t_workflow obj).
Proof.
  unfold save_model, bind, get_state.
  match goal with
  | |- exists o, super_save_model ?x st = _ /\ _ => exists x
  end.
  split; [reflexivity|].
  destruct (bool_decide ("_completed" ∈ POST)) eqn:Hc.
  - apply bool_decide_eq_true in Hc. split; [|split].
    + intros _.
      destruct (t_stage obj) as [s|]; simpl.
      * destruct (negb (s_active s)); auto.
      * destruct (List.find s_default (TaskStage_objects st)) as [d|]; simpl;
          [destruct (negb (s_active d))|]; auto.
    + intros Hn. contradiction.
    + destruct (t_stage obj) as [s|]; simpl.
      * destruct (negb (s_active s)); simpl; auto 10.
      * destruct (List.find s_default (TaskStage_objects st)) as [d|]; simpl;
          [destruct (negb (s_active d))|]; simpl; auto 10.
  - apply bool_decide_eq_false in Hc. split; [intros H; contradiction|].
    split.
    + intros _. destruct (t_stage obj) as [s|] eqn:Hs; simpl.
      * destruct (s_active s) eqn:Ha; simpl; rewrite ?Hs.
        -- repeat split; try congruence.
           intros s' [= <-]. rewrite Ha. reflexivity.
        -- repeat split; try congruence.
           intros s' [= <-]. rewrite Ha. reflexivity.
      * destruct (List.find s_default (TaskStage_objects st)) as [d|]; simpl.
        -- destruct (s_active d) eqn:Ha; simpl;
             (repeat split; try congruence);
             intros s' [= <-]; rewrite Ha; reflexivity.
        -- repeat split; congruence.
    + destruct (t_stage obj) as [s|]; simpl.
      * destruct (negb (s_active s)); simpl; auto 10.
      * destruct (List.find s_default (TaskStage_objects st)) as [d|]; simpl;
          [destruct (negb (s_active d))|]; simpl; auto 10.
Qed.

Lemma save_model_stage_and_closing_date_witness :
  exists obj',
    save_model Task.save 100 ["_completed"; "_save"]
               (sample_task 3 (Some 1) stage_in_progress "Check invoices")
               db_open_subtask
    = Task.save obj' db_open_subtask
    /\ t_stage obj' = Some stage_done
    /\ t_closing_date obj' = Some 100.
Proof.
  destruct (save_model_stage_and_closing_date Task.save 100 ["_completed"; "_save"]
              (sample_task 3 (Some 1) stage_in_progress "Check invoices")
              db_open_subtask) as (obj' & E & Hc & _).
  exists obj'. split; [exact E|].
  apply Hc. apply list_elem_of_In. simpl. auto.
Defined.

(** ** The admin: what the change page offers *)

(** X16: [TaskAdmin.change_view] redirects when the base class gives a
    URL and fails with DoesNotExist when the task has no row;
    otherwise the 'completed' button is shown exactly for a task
    without sub-tasks, with at most one responsible and not in a done
    stage, and the link that adds a sub-task is offered exactly when
    the button is not shown and the requesting user is responsible for
    the task, so the page never offers both. *)
Theorem change_view_offers (url_if_no_object : option string)
        (get_add_subtask_url : pk -> string) (st : State) (user object_id : pk) :
  (forall url, url_if_no_object = Some url -> url <> "" ->
     change_view url_if_no_object get_add_subtask_url st user object_id
     = Redirect url)
  /\ (url_if_no_object = None \/ url_if_no_object = Some "" ->
      (get_task st object_id = None ->
       change_view url_if_no_object get_add_subtask_url st user object_id
       = DoesNotExist)
      /\ (forall task, get_task st object_id = Some task ->
          exists ctx,
            change_view url_if_no_object get_add_subtask_url st user object_id
            = Render ctx
            /\ (show_completed ctx = true
                <-> (forall t, t ∈ Task_objects st -> t_task_id t <> Some object_id)
                    /\ (length (responsible_all st task) <= 1)%nat
                    /\ ~ (exists s, t_stage task = Some s /\ s_done s = true))
            /\ (add_subtask_url ctx = Some (get_add_subtask_url object_id)
                <-> show_completed ctx = false
                    /\ (object_id, user) ∈ Task_responsible st)
            /\ (add_subtask_url ctx = None
                \/ add_subtask_url ctx = Some (get_add_subtask_url object_id))
            /\ ~ (show_completed ctx = true /\ is_Some (add_subtask_url ctx)))).
Proof.
  unfold change_view. split.
  - intros url -> Hne. simpl.
    destruct (String.eqb_spec url ""); [contradiction | reflexivity].
  - intros Hurl.
    assert (Hfalsy : truthy_str url_if_no_object = false)
      by (destruct Hurl as [-> | ->]; reflexivity).
    rewrite Hfalsy. split; [intros ->; reflexivity|].
    intros task Htask. rewrite Htask. eexists. split; [reflexivity|]. simpl.
    set (subtasks := List.filter (fun t => bool_decide (t_task_id t = Some object_id))
                                 (Task_objects st)).
    assert (Hsub : (length subtasks =? 0)%nat = true
                   <-> forall t, t ∈ Task_objects st -> t_task_id t <> Some object_id).
    { rewrite Nat.eqb_eq. split.
      - intros Hlen t Hin Ht.
        assert (Hmem : t ∈ subtasks).
        { apply list_elem_of_In, filter_In. rewrite <- list_elem_of_In.
          split; [exact Hin | apply bool_decide_eq_true, Ht]. }
        destruct subtasks; [inversion Hmem | discriminate].
      - intros Hnone. destruct subtasks as [|t l] eqn:E; [reflexivity|].
        assert (Hmem : In t subtasks) by (rewrite E; left; reflexivity).
        apply filter_In in Hmem as [Hin Ht]. apply bool_decide_eq_true in Ht.
        apply list_elem_of_In in Hin. destruct (Hnone t Hin Ht). }
    assert (Hdone : stage_done_truthy (t_stage task) = false
                    <-> ~ (exists s, t_stage task = Some s /\ s_done s = true)).
    { unfold stage_done_truthy. destruct (t_stage task) as [s|].
      - split.
        + intros Hd (s' & [= <-] & Hs). congruence.
        + intros Hn. apply not_true_is_false. intros Hs. apply Hn. eauto.
      - split; [intros _ (s' & H & _); discriminate | reflexivity]. }
    assert (Hshow :
      negb (negb (length subtasks =? 0)%nat
            || (1 <? length (responsible_all st task))%nat
            || stage_done_truthy (t_stage task)) = true
      <-> (forall t, t ∈ Task_objects st -> t_task_id t <> Some object_id)
          /\ (length (responsible_all st task) <= 1)%nat
          /\ ~ (exists s, t_stage task = Some s /\ s_done s = true)).
    { rewrite negb_true_iff, !orb_false_iff, negb_false_iff, Hsub, Hdone.
      rewrite Nat.ltb_ge. tauto. }
    split; [exact Hshow|].
    pose proof (responsible_all_spec st task object_id user
                  (get_task_id _ _ _ Htask)) as Huser.
    destruct (negb (negb (length subtasks =? 0)%nat
                    || (1 <? length (responsible_all st task))%nat
                    || stage_done_truthy (t_stage task))) eqn:Hs; simpl.
    + split; [split; [discriminate | intros [H _]; discriminate]|].
      split; [left; reflexivity|]. intros [_ [x Hx]]. discriminate.
    + destruct (bool_decide (user ∈ responsible_all st task)) eqn:Hu.
      * apply bool_decide_eq_true in Hu. apply Huser in Hu.
        split; [tauto|]. split; [right; reflexivity|].
        intros [H _]. discriminate.
      * apply bool_decide_eq_false in Hu.
        split; [split; [discriminate | intros [_ H]; apply Huser in H; contradiction]|].
        split; [left; reflexivity|]. intros [H _]. discriminate.
Qed.

Lemma change_view_offers_witness :
  exists ctx,
    change_view None sample_add_url db_open_subtask 7 1 = Render ctx
    /\ show_completed ctx = false
    /\ add_subtask_url ctx = Some (sample_add_url 1).
Proof.
  destruct (proj2 (proj2 (change_view_offers None sample_add_url db_open_subtask 7 1)
                         (or_introl eq_refl))
                  (sample_task 1 None stage_pending "Audit") eq_refl)
    as (ctx & E & Hshow & Hadd & _).
  exists ctx. split; [exact E|].
  assert (Hs : show_completed ctx = false).
  { vm_compute in E. injection E as <-. reflexivity. }
  split; [exact Hs|].
  apply Hadd. split; [exact Hs|].
  apply list_elem_of_In. simpl. auto.
Defined.

(** ** The admin: who can be made responsible *)

Lemma string_compare_le_trans (s1 : string) :
  forall s2 s3,
    String.compare s1 s2 <> Gt -> String.compare s2 s3 <> Gt ->
    String.compare s1 s3 <> Gt.
Proof.
  induction s1 as [|c1 s1 IH]; intros [|c2 s2] [|c3 s3]; simpl; try congruence.
  unfold Ascii.compare.
  destruct (N.compare_spec (Ascii.N_of_ascii c1) (Ascii.N_of_ascii c2)) as [E12|L12|G12];
    destruct (N.compare_spec (Ascii.N_of_ascii c2) (Ascii.N_of_ascii c3)) as [E23|L23|G23];
    destruct (N.compare_spec (Ascii.N_of_ascii c1) (Ascii.N_of_ascii c3)) as [E13|L13|G13];
    try congruence; try lia; eauto.
Qed.

#[global] Instance username_le_trans : Transitive username_le.
Proof.
  intros u v w. unfold username_le, String.leb. intros H1 H2.
  pose proof (string_compare_le_trans (username u) (username v) (username w)) as H.
  destruct (String.compare (username u) (username v)); try discriminate;
    destruct (String.compare (username v) (username w)); try discriminate;
    destruct (String.compare (username u) (username w)); try reflexivity;
    exfalso; apply H; congruence.
Qed.

#[global] Instance username_le_total : Total username_le.
Proof. intros u v. unfold username_le. apply String.leb_total. Qed.

(** X17: who can be made responsible.  For the field 'responsible',
    [formfield_for_manytomany] offers a chief, a superuser or a task
    operator all the active users, and any other user only the active
    users with that user's own id, which are also preselected; the
    users offered are in the order of their user names.  For every
    other field the keyword arguments are passed on as they are. *)
Theorem formfield_for_manytomany_offers (get_active_users : list User)
        (db_field_name : string) (request_user : User) (kwargs : Kwargs) :
  let kw := formfield_for_manytomany get_active_users db_field_name
                                     request_user kwargs in
  let privileged :=
    is_chief request_user || is_superuser request_user
    || is_task_operator request_user in
  (db_field_name <> "responsible" -> kw = kwargs)
  /\ (db_field_name = "responsible" ->
      exists queryset,
        kw_queryset kw = Some queryset
        /\ StronglySorted username_le queryset
        /\ (privileged = true ->
            queryset ≡ₚ get_active_users /\ kw_initial kw = kw_initial kwargs)
        /\ (privileged = false ->
            (forall u, u ∈ queryset
                       <-> u ∈ get_active_users /\ u_id u = u_id request_user)
            /\ exists initial, kw_initial kw = Some initial /\ initial ≡ₚ queryset)).
Proof.
  intros kw privileged. subst kw. unfold formfield_for_manytomany. split.
  - intros Hne. destruct (String.eqb_spec db_field_name "responsible");
      [contradiction | reflexivity].
  - intros ->. simpl. fold privileged.
    eexists. split; [reflexivity|].
    split; [apply StronglySorted_merge_sort; apply _|].
    destruct privileged; simpl; split; intros H; try discriminate.
    + split; [apply merge_sort_Permutation | reflexivity].
    + split.
      * intros u. rewrite merge_sort_Permutation, list_elem_of_In, filter_In.
        rewrite Z.eqb_eq, <- list_elem_of_In. reflexivity.
      * eexists. split; [reflexivity|]. symmetry. apply merge_sort_Permutation.
Qed.

Lemma formfield_for_manytomany_offers_witness :
  exists queryset,
    kw_queryset (formfield_for_manytomany [user_chief; user_clerk] "responsible"
                                          user_clerk no_kwargs)
    = Some queryset
    /\ forall u, u ∈ queryset <-> u ∈ [user_chief; user_clerk] /\ u_id u = 7.
Proof.
  destruct (proj2 (formfield_for_manytomany_offers [user_chief; user_clerk]
                     "responsible" user_clerk no_kwargs) eq_refl)
    as (queryset & E & _ & _ & Hown).
  exists queryset. split; [exact E|].
  apply (proj1 (Hown eq_refl)).
Defined.

(** ** Auto-closing and the cascade together *)

(** X18: a main task is closed once.  When the first stage marked done
    is neither default nor in progress, a call of
    [check_and_deacte_main_task] right after another changes nothing:
    the closed main task is not saved again and its workflow gets no
    second entry. *)
Theorem auto_close_once (today : date) (self : Task) (st : State)
        (done_stage : TaskStage) :
  List.find s_done (TaskStage_objects st) = Some done_stage ->
  s_default done_stage = false ->
  s_in_progress done_stage = false ->
  let st' := exec (Task.check_and_deacte_main_task today self) st in
  Task.check_and_deacte_main_task today self st' = (tt, st').
Proof.
  intros Hfind Hd Hi st'. subst st'. unfold exec.
  destruct (check_and_deacte_cases today self st)
    as [E | (p & main_task & ms & ds & Hp & Hmain & _ & _ & _ & _ & Hfind' & E)];
    rewrite E; simpl; [exact E|].
  assert (ds = done_stage) as -> by congruence.
  destruct (Task_save_fields (closed_fields today done_stage main_task) st)
    as ((_ & Hs & _) & _ & _ & (i & Hid & Hor & Hget) & _).
  pose proof (get_task_id _ _ _ Hmain) as Hpid.
  assert (i = p) as -> by (destruct Hor as [H | H]; simpl in H; congruence).
  unfold Task.check_and_deacte_main_task, bind, get_state, task_of.
  rewrite Hp, Hget, Hs. simpl. rewrite Hd, Hi. reflexivity.
Qed.

Lemma auto_close_once_witness :
  let self := sample_task 2 (Some 1) stage_done "Collect invoices" in
  let st' := exec (Task.check_and_deacte_main_task 100 self) db_all_done in
  Task.check_and_deacte_main_task 100 self st' = (tt, st').
Proof.
  apply (auto_close_once 100 (sample_task 2 (Some 1) stage_done "Collect invoices")
           db_all_done stage_done); reflexivity.
Defined.

(** X19: the cascade never takes a main task out of reach of
    auto-closing: the main task is in a default or in-progress stage
    after lines 193-199 of [save_related] exactly when it was before,
    and the step changes the main task only by moving it from a
    default stage to the in-progress stage of the sub-task. *)
Theorem cascade_keeps_stage_open (obj main_task : Task) (st : State) :
  let after := fst (TaskAdmin.save_related_cascade obj main_task st) in
  stage_open after = stage_open main_task
  /\ (t_stage after = t_stage main_task
      \/ exists main_stage obj_stage,
           t_stage main_task = Some main_stage /\ s_default main_stage = true
           /\ t_stage obj = Some obj_stage /\ s_in_progress obj_stage = true
           /\ t_stage after = Some obj_stage).
Proof.
  intros after. subst after. unfold TaskAdmin.save_related_cascade, stage_open.
  destruct (t_stage main_task) as [ms|] eqn:Hms; [|simpl; rewrite Hms; auto].
  destruct (t_stage obj) as [os|] eqn:Hos; [|simpl; rewrite Hms; auto].
  destruct (s_default ms && s_in_progress os) eqn:Hflags;
    [|simpl; rewrite Hms; auto].
  apply andb_true_iff in Hflags as [Hd Hi].
  destruct (Task_save_fields (set_stage (Some os) main_task) st)
    as ((_ & Hs & _) & _).
  rewrite Hs. simpl. rewrite Hd, Hi, orb_true_r. simpl.
  split; [reflexivity|]. right. exists ms, os. auto.
Qed.
